(** * Travel-guide notebook: extraction heuristic and defensive renderer

    A shallow embedding of [travel-guide-notebook.ipynb]
    ([scrape_destination_info], [get_user_prompt], [generate_guide],
    [format_guide], [create_travel_guide]) together with the properties
    stated about them.

    Conventions.
    - Python [str] is modelled by [string]; the built-ins [str.lower],
      [str.strip] and [repr] are written out for ASCII code points, other
      bytes are passed through unchanged.
    - A Python [dict] is an association list in insertion order; an update of
      an existing key keeps the key's position.
    - A raised exception is the [Raise] branch of [result]; only the class of
      the exception (and the key of a [KeyError]) is recorded.
    - Collaborators that are not part of the notebook (the HTTP fetch with
      its HTML parser, the chat-completion endpoint, [json.loads]) are
      variables of the section that models the pipeline. *)

From Stdlib Require Import String Ascii ZArith List Lia Bool DecimalString.
From Equations Require Import Equations.
Import ListNotations.
Open Scope string_scope.

Set Implicit Arguments.
Local Set Warnings "-register-all".

(* ================================================================== *)
(** * Python strings *)
(* ================================================================== *)

Module PyStr.

(** The characters that cannot be typed inside a string literal here. *)
Definition nl : string := String "010"%char EmptyString.
Definition dq : string := String "034"%char EmptyString.
Definition sq : string := "'".

(** [sep.join(parts)] *)
Definition join (sep : string) (parts : list string) : string :=
  String.concat sep parts.

(** [needle in hay] for two strings: [hay] has a suffix that starts with
    [needle]. *)
Fixpoint contains (needle hay : string) : bool :=
  String.prefix needle hay ||
  match hay with
  | EmptyString => false
  | String _ rest => contains needle rest
  end.

(** [c.lower()] on one code point. *)
Definition lower_char (c : ascii) : ascii :=
  let n := nat_of_ascii c in
  if (65 <=? n)%nat && (n <=? 90)%nat then ascii_of_nat (n + 32) else c.

(** [s.lower()] *)
Fixpoint lower (s : string) : string :=
  match s with
  | EmptyString => EmptyString
  | String c rest => String (lower_char c) (lower rest)
  end.

(** [c.isspace()]: tab, line feed, vertical tab, form feed, carriage
    return, the four separators 28..31 and the space. *)
Definition is_space (c : ascii) : bool :=
  let n := nat_of_ascii c in
  ((9 <=? n)%nat && (n <=? 13)%nat) || ((28 <=? n)%nat && (n <=? 32)%nat).

Fixpoint lstrip (s : string) : string :=
  match s with
  | EmptyString => EmptyString
  | String c rest => if is_space c then lstrip rest else s
  end.

Fixpoint rstrip (s : string) : string :=
  match s with
  | EmptyString => EmptyString
  | String c rest =>
      match rstrip rest with
      | EmptyString => if is_space c then EmptyString else String c EmptyString
      | kept => String c kept
      end
  end.

(** [s.strip()] *)
Definition strip (s : string) : string := rstrip (lstrip s).

(** [s.replace(' ', '_')] as used for the URL. *)
Fixpoint replace_space (s : string) : string :=
  match s with
  | EmptyString => EmptyString
  | String c rest =>
      String (if Ascii.eqb c " " then "_"%char else c) (replace_space rest)
  end.

(** [str(n)] for an [int]. *)
Definition of_int (n : Z) : string := NilZero.string_of_int (Z.to_int n).

Definition hex_digit (n : nat) : ascii :=
  if (n <? 10)%nat then ascii_of_nat (48 + n) else ascii_of_nat (87 + n).

(** One code point inside [repr(s)], [quote] being the delimiter chosen. *)
Definition repr_char (quote : ascii) (c : ascii) : string :=
  let n := nat_of_ascii c in
  if Ascii.eqb c quote then String "\" (String c EmptyString)
  else if Ascii.eqb c "\" then "\\"
  else if (n =? 9)%nat then "\t"
  else if (n =? 10)%nat then "\n"
  else if (n =? 13)%nat then "\r"
  else if (n <? 32)%nat || (n =? 127)%nat then
    String "\" (String "x" (String (hex_digit (n / 16))
                              (String (hex_digit (n mod 16)) EmptyString)))
  else String c EmptyString.

Fixpoint repr_body (quote : ascii) (s : string) : string :=
  match s with
  | EmptyString => EmptyString
  | String c rest => repr_char quote c ++ repr_body quote rest
  end.

(** [repr(s)] for a [str]: single quotes, unless the text has a single
    quote and no double quote. *)
Definition repr (s : string) : string :=
  let quote := if contains sq s && negb (contains dq s)
               then "034"%char else "'"%char in
  String quote (repr_body quote s ++ String quote EmptyString).

End PyStr.

Import PyStr.

(* ================================================================== *)
(** * Python values and exceptions *)
(* ================================================================== *)

(** What [json.loads] can return.  A [float] is kept as the text [str]
    gives for it, the only thing the notebook ever does with a number. *)
Inductive value : Type :=
| VNone
| VBool (b : bool)
| VInt (n : Z)
| VFloat (text : string)
| VStr (s : string)
| VList (items : list value)
| VDict (entries : list (string * value)).

Inductive exn : Type :=
| KeyError (key : string)
| TypeError
| JSONDecodeError (msg : string)
| OtherError (what : string).

Inductive result (A : Type) : Type :=
| Ok (a : A)
| Raise (e : exn).

Arguments Ok {A} a.
Arguments Raise {A} e.

Definition bind {A B : Type} (r : result A) (k : A -> result B) : result B :=
  match r with
  | Ok a => k a
  | Raise e => Raise e
  end.

Declare Scope py_scope.
Delimit Scope py_scope with py.
Notation "x <- r ;; k" := (bind r (fun x => k))
  (at level 61, r at next level, right associativity) : py_scope.
Open Scope py_scope.

Definition returns {A : Type} (r : result A) : Prop :=
  exists a, r = Ok a.

(** ** Dictionaries *)

Module Dict.
Section Ops.
Variable V : Type.

Fixpoint get (d : list (string * V)) (key : string) : option V :=
  match d with
  | [] => None
  | (k, v) :: rest => if String.eqb k key then Some v else get rest key
  end.

(** [key in d] *)
Definition mem (key : string) (d : list (string * V)) : bool :=
  match get d key with Some _ => true | None => false end.

(** [d[key] = v] for a key that may or may not be there. *)
Fixpoint set (d : list (string * V)) (key : string) (v : V)
  : list (string * V) :=
  match d with
  | [] => [(key, v)]
  | (k, old) :: rest =>
      if String.eqb k key then (k, v) :: rest
      else (k, old) :: set rest key v
  end.

Definition keys (d : list (string * V)) : list string := map fst d.
End Ops.
End Dict.

(** ** [repr], [str] and the f-string conversion *)

Fixpoint py_repr (v : value) : string :=
  match v with
  | VNone => "None"
  | VBool true => "True"
  | VBool false => "False"
  | VInt n => of_int n
  | VFloat text => text
  | VStr s => PyStr.repr s
  | VList items => "[" ++ join ", " (map py_repr items) ++ "]"
  | VDict entries =>
      "{" ++ join ", "
               (map (fun kv => match kv with
                               | (k, x) => PyStr.repr k ++ ": " ++ py_repr x
                               end) entries)
          ++ "}"
  end.

(** [str(v)], which is what [f"{v}"] inserts. *)
Definition py_str (v : value) : string :=
  match v with
  | VStr s => s
  | _ => py_repr v
  end.

(** [v[key]] with a [str] subscript. *)
Definition subscript (v : value) (key : string) : result value :=
  match v with
  | VDict entries =>
      match Dict.get entries key with
      | Some x => Ok x
      | None => Raise (KeyError key)
      end
  | _ => Raise TypeError
  end.

(** [key in v] with a [str] on the left. *)
Definition py_in (key : string) (v : value) : result bool :=
  match v with
  | VDict entries => Ok (Dict.mem key entries)
  | VList items =>
      Ok (existsb (fun x => match x with
                            | VStr s => String.eqb s key
                            | _ => false
                            end) items)
  | VStr s => Ok (contains key s)
  | _ => Raise TypeError
  end.

(* ================================================================== *)
(** * [format_guide] *)
(* ================================================================== *)

Module Render.

Definition title (destination : string) : string :=
  "# Travel Guide: " ++ destination ++ nl ++ nl.

Definition h_overview : string := "## Overview" ++ nl ++ nl.
Definition h_attractions : string := "## Must-See Attractions" ++ nl ++ nl.
Definition h_transportation : string := "## Getting Around" ++ nl ++ nl.
Definition h_food : string := "## Food & Dining" ++ nl ++ nl.
Definition h_tips : string := "## Practical Tips" ++ nl ++ nl.

(** [f"{x}\n\n"], [f"### {x}\n"] and [f"- {x}\n"] *)
Definition para (x : value) : string := py_str x ++ nl ++ nl.
Definition sub_heading (x : string) : string := "### " ++ x ++ nl.
Definition bullet (x : value) : string := "- " ++ py_str x ++ nl.

(** [if 'overview' in guide_data: ...] *)
Definition overview_block (guide_data : value) (markdown_text : string)
  : result string :=
  present <- py_in "overview" guide_data ;;
  if present : bool then
    x <- subscript guide_data "overview" ;;
    Ok (markdown_text ++ h_overview ++ para x)
  else Ok markdown_text.

(** [for attraction in attractions: ...] *)
Fixpoint attractions_loop (attractions : list value) (markdown_text : string)
  : result string :=
  match attractions with
  | [] => Ok markdown_text
  | attraction :: rest =>
      name <- subscript attraction "name" ;;
      let markdown_text := markdown_text ++ sub_heading (py_str name) in
      description <- subscript attraction "description" ;;
      let markdown_text := markdown_text ++ para description in
      attractions_loop rest markdown_text
  end.

(** [if 'attractions' in guide_data: ...] *)
Definition attractions_block (guide_data : value) (markdown_text : string)
  : result string :=
  present <- py_in "attractions" guide_data ;;
  if present : bool then
    let markdown_text := markdown_text ++ h_attractions in
    attractions <- subscript guide_data "attractions" ;;
    match attractions with
    | VList items => attractions_loop items markdown_text
    | _ => Ok (markdown_text ++ para attractions)
    end
  else Ok markdown_text.

(** [for method, info in transport.items(): ...]; also the inner loop of
    the dining branch, [for title, desc in item.items(): ...]. *)
Fixpoint items_loop (entries : list (string * value)) (markdown_text : string)
  : string :=
  match entries with
  | [] => markdown_text
  | (method, info) :: rest =>
      items_loop rest (markdown_text ++ sub_heading method ++ para info)
  end.

(** [if 'transportation' in guide_data: ...] *)
Definition transportation_block (guide_data : value) (markdown_text : string)
  : result string :=
  present <- py_in "transportation" guide_data ;;
  if present : bool then
    let markdown_text := markdown_text ++ h_transportation in
    transport <- subscript guide_data "transportation" ;;
    match transport with
    | VDict entries => Ok (items_loop entries markdown_text)
    | _ => Ok (markdown_text ++ para transport)
    end
  else Ok markdown_text.

(** [for item in dining: ...] *)
Fixpoint dining_loop (dining : list value) (markdown_text : string) : string :=
  match dining with
  | [] => markdown_text
  | item :: rest =>
      match item with
      | VDict entries => dining_loop rest (items_loop entries markdown_text)
      | _ => dining_loop rest (markdown_text ++ bullet item)
      end
  end.

(** [if 'food_and_dining' in guide_data: ...] *)
Definition food_block (guide_data : value) (markdown_text : string)
  : result string :=
  present <- py_in "food_and_dining" guide_data ;;
  if present : bool then
    let markdown_text := markdown_text ++ h_food in
    dining <- subscript guide_data "food_and_dining" ;;
    match dining with
    | VList items => Ok (dining_loop items markdown_text)
    | _ => Ok (markdown_text ++ para dining)
    end
  else Ok markdown_text.

(** [for tip in tips: ...] *)
Fixpoint tips_loop (tips : list value) (markdown_text : string) : string :=
  match tips with
  | [] => markdown_text
  | tip :: rest => tips_loop rest (markdown_text ++ bullet tip)
  end.

(** [if 'tips' in guide_data: ...] *)
Definition tips_block (guide_data : value) (markdown_text : string)
  : result string :=
  present <- py_in "tips" guide_data ;;
  if present : bool then
    let markdown_text := markdown_text ++ h_tips in
    tips <- subscript guide_data "tips" ;;
    match tips with
    | VList items => Ok (tips_loop items markdown_text)
    | _ => Ok (markdown_text ++ para tips)
    end
  else Ok markdown_text.

Definition format_guide (guide_data : value) (destination : string)
  : result string :=
  let markdown_text := title destination in
  markdown_text <- overview_block guide_data markdown_text ;;
  markdown_text <- attractions_block guide_data markdown_text ;;
  markdown_text <- transportation_block guide_data markdown_text ;;
  markdown_text <- food_block guide_data markdown_text ;;
  markdown_text <- tips_block guide_data markdown_text ;;
  Ok markdown_text.

End Render.

Import Render.

(* ================================================================== *)
(** * The parsed page *)
(* ================================================================== *)

Module Soup.

(** A parsed document: strings and tags.  [Text] stands for the strings
    [get_text] collects, [Comment] for those it leaves out. *)
Inductive node : Type :=
| Text (s : string)
| Comment (s : string)
| Tag (name : string) (attrs : list (string * string)) (contents : list node).

(** A tag as the code holds it: the tag and the siblings after it, which
    is what [find_next_sibling] walks. *)
Record element : Type := Element {
  name : string;
  attrs : list (string * string);
  contents : list node;
  next_siblings : list node
}.

(** [tag.get_text()] : every [Text] below the tag, in document order. *)
Fixpoint node_text (n : node) : string :=
  match n with
  | Text s => s
  | Comment _ => ""
  | Tag _ _ cs =>
      (fix all_text (l : list node) : string :=
         match l with
         | [] => ""
         | c :: rest => node_text c ++ all_text rest
         end) cs
  end.

Definition get_text (e : element) : string :=
  node_text (Tag (name e) (attrs e) (contents e)).

(** The tags strictly below a node, in document order, each with the
    siblings that follow it. *)
Fixpoint tags_below (n : node) : list element :=
  match n with
  | Tag _ _ cs =>
      (fix walk (l : list node) : list element :=
         match l with
         | [] => []
         | c :: rest =>
             (match c with
              | Tag nm at' cs' => [Element nm at' cs' rest]
              | _ => []
              end ++ tags_below c ++ walk rest)%list
         end) cs
  | _ => []
  end.

Definition descendants (e : element) : list element :=
  tags_below (Tag (name e) (attrs e) (contents e)).

(** [e.find_all(names)] *)
Definition find_all (e : element) (names : list string) : list element :=
  filter (fun d => existsb (String.eqb (name d)) names) (descendants e).

(** [e.find(nm)] *)
Definition find (e : element) (nm : string) : option element :=
  List.find (fun d => String.eqb (name d) nm) (descendants e).

(** [e.find(nm, {key: val})] *)
Definition find_with_attr (e : element) (nm key val : string)
  : option element :=
  List.find (fun d => String.eqb (name d) nm &&
                      match Dict.get (attrs d) key with
                      | Some v => String.eqb v val
                      | None => false
                      end)
            (descendants e).

(** The first tag of a run of siblings; strings are stepped over. *)
Fixpoint first_tag (l : list node) : option element :=
  match l with
  | [] => None
  | Tag nm at' cs :: rest => Some (Element nm at' cs rest)
  | _ :: rest => first_tag rest
  end.

(** [e.find_next_sibling()] *)
Definition find_next_sibling (e : element) : option element :=
  first_tag (next_siblings e).

(** How far a walk along the siblings can still go. *)
Definition reach (current : option element) : nat :=
  match current with
  | Some e => S (length (next_siblings e))
  | None => 0
  end.

(** The document object itself, [BeautifulSoup(...)]. *)
Definition document (top : list node) : element :=
  Element "[document]" [] top [].

End Soup.

Import Soup.

(* ================================================================== *)
(** * [scrape_destination_info]: what is done with the content container *)
(* ================================================================== *)

Module Extract.

(** [info] and [current_section] *)
Definition info_dict : Type := list (string * string).

Definition empty_info : info_dict :=
  [("overview", ""); ("attractions", ""); ("transportation", "");
   ("food", ""); ("tips", "")].

(** [info[key] += text] *)
Definition iadd (info : info_dict) (key text : string) : result info_dict :=
  match Dict.get info key with
  | Some old => Ok (Dict.set info key (old ++ text))
  | None => Raise (KeyError key)
  end.

(** [while current and current.name == 'p': ...] *)
Equations? intro_loop (current : option element) (intro_paras : list string)
  : list string by wf (reach current) lt :=
  intro_loop None intro_paras := intro_paras;
  intro_loop (Some c) intro_paras with String.eqb (name c) "p" := {
    | true := intro_loop (find_next_sibling c)
                         (intro_paras ++ [strip (get_text c)])%list;
    | false := intro_paras }.
Proof.
  unfold find_next_sibling. generalize (next_siblings c) as l.
  induction l as [|[s|s|nm a cs] l IH]; simpl in *; lia.
Qed.

(** [while next_elem and next_elem.name not in ['h2', 'h3']: ...] *)
Equations? section_loop (next_elem : option element)
                        (section_content : list string)
  : list string by wf (reach next_elem) lt :=
  section_loop None section_content := section_content;
  section_loop (Some e) section_content with existsb (String.eqb (name e))
                                                  ["h2"; "h3"] := {
    | true := section_content;
    | false :=
        section_loop (find_next_sibling e)
                     (if String.eqb (name e) "p"
                      then (section_content ++ [strip (get_text e)])%list
                      else section_content) }.
Proof.
  unfold find_next_sibling. generalize (next_siblings e) as l.
  induction l as [|[s|s|nm a cs] l IH]; simpl in *; lia.
Qed.

(** The [if]/[elif] chain that maps a heading to a section; a heading
    that matches nothing leaves [current_section] as it was. *)
Definition update_section (heading_text : string)
                          (current_section : option string) : option string :=
  if contains "see" heading_text || contains "sight" heading_text
  then Some "attractions"
  else if contains "get around" heading_text
          || contains "transport" heading_text
  then Some "transportation"
  else if contains "eat" heading_text || contains "food" heading_text
  then Some "food"
  else if contains "understand" heading_text || contains "tips" heading_text
  then Some "tips"
  else current_section.

(** [if current_section:] *)
Definition truthy (current_section : option string) : bool :=
  match current_section with
  | Some EmptyString => false
  | Some _ => true
  | None => false
  end.

(** The paragraphs gathered for one heading, joined. *)
Definition section_text (heading : element) : string :=
  join " " (section_loop (find_next_sibling heading) []).

(** One turn of [for heading in headings: ...] *)
Definition heading_step (st : option string * info_dict) (heading : element)
  : result (option string * info_dict) :=
  let heading_text := lower (get_text heading) in
  let current_section := update_section heading_text (fst st) in
  if truthy current_section then
    match current_section with
    | Some key =>
        info <- iadd (snd st) key (section_text heading) ;;
        Ok (current_section, info)
    | None => Ok (current_section, snd st)
    end
  else Ok (current_section, snd st).

Fixpoint headings_loop (headings : list element)
                       (st : option string * info_dict)
  : result (option string * info_dict) :=
  match headings with
  | [] => Ok st
  | heading :: rest =>
      st' <- heading_step st heading ;;
      headings_loop rest st'
  end.

(** The overview: [' '.join(intro_paras)] *)
Definition overview_of (content : element) : string :=
  join " " (intro_loop (find content "p") []).

(** From [info = {...}] to [return info]. *)
Definition extract (content : element) : result info_dict :=
  let info := empty_info in
  let info := Dict.set info "overview" (overview_of content) in
  let headings := find_all content ["h2"; "h3"] in
  st <- headings_loop headings (None, info) ;;
  Ok (snd st).

End Extract.

Import Extract.

(* ================================================================== *)
(** * Prompts, [generate_guide] and [create_travel_guide] *)
(* ================================================================== *)

Module Pipeline.

(** What [print] has written: a line of text, or a line that ends with the
    text of an exception, which is kept as the exception itself. *)
Inductive printed : Type :=
| Line (text : string)
| ErrorLine (prefix : string) (e : exn).

(** What the notebook does to the outside: the lines printed, the pages
    requested, the completions requested and the documents displayed. *)
Record world : Type := World {
  stdout : list printed;
  fetches : nat;
  completions : nat;
  displayed : list string
}.

Definition print (p : printed) (w : world) : world :=
  World (stdout w ++ [p]) (fetches w) (completions w) (displayed w).

Definition count_fetch (w : world) : world :=
  World (stdout w) (S (fetches w)) (completions w) (displayed w).

Definition count_completion (w : world) : world :=
  World (stdout w) (fetches w) (S (completions w)) (displayed w).

(** [display(Markdown(text))] *)
Definition display (text : string) (w : world) : world :=
  World (stdout w) (fetches w) (completions w) (displayed w ++ [text]).

Definition quoted (s : string) : string := dq ++ s ++ dq.

Definition get_system_prompt : string :=
  join nl
    ["You are a travel guide generator. You MUST output ONLY a JSON object with exactly these 5 keys:";
     "    - overview";
     "    - attractions";
     "    - transportation";
     "    - food_and_dining";
     "    - tips";
     "    ";
     "    Each key MUST contain a plain text string value (not a list or object).";
     "    For attractions, transportation, and other structured information, ";
     "    include it as formatted text with bullet points or numbering.";
     "    ";
     "    Example format:";
     "    {";
     "        " ++ quoted "overview" ++ ": "
       ++ quoted "Paris is a beautiful city..." ++ ",";
     "        " ++ quoted "attractions" ++ ": "
       ++ quoted ("1. Eiffel Tower - The iconic symbol of Paris..." ++ nl
                  ++ "2. The Louvre - World's largest museum...") ++ ",";
     "        " ++ quoted "transportation" ++ ": "
       ++ quoted ("Metro: The Paris Metro is extensive..." ++ nl
                  ++ "Bus: Bus services run throughout...") ++ ",";
     "        " ++ quoted "food_and_dining" ++ ": "
       ++ quoted ("Paris offers world-class dining..." ++ nl
                  ++ "- Cafes: Traditional French cafes..." ++ nl
                  ++ "- Restaurants: Michelin-starred...") ++ ",";
     "        " ++ quoted "tips" ++ ": "
       ++ quoted ("1. Learn basic French phrases" ++ nl
                  ++ "2. Buy metro tickets in bulk" ++ nl
                  ++ "3. Many shops close on Sundays");
     "    }";
     "    ";
     "    The response MUST be a valid JSON object and MUST contain all these keys with text string values.";
     "    Do not use nested objects or arrays."].

(** [info[key]] inside the f-string *)
Definition info_at (info : info_dict) (key : string) : result string :=
  match Dict.get info key with
  | Some text => Ok text
  | None => Raise (KeyError key)
  end.

Definition get_user_prompt (destination : string) (info : info_dict)
  : result string :=
  overview <- info_at info "overview" ;;
  attractions <- info_at info "attractions" ;;
  transportation <- info_at info "transportation" ;;
  food <- info_at info "food" ;;
  tips <- info_at info "tips" ;;
  Ok (join nl
        ["Create a travel guide for " ++ destination
           ++ " using this information:";
         "";
         "Overview: " ++ overview;
         "";
         "Attractions: " ++ attractions;
         "";
         "Transportation: " ++ transportation;
         "";
         "Food & Dining: " ++ food;
         "";
         "Tips & Understanding: " ++ tips;
         "";
         "Generate a travel guide as a JSON object with exactly these keys:";
         "{";
         "    " ++ quoted "overview" ++ ": "
           ++ quoted "brief city introduction" ++ ",";
         "    " ++ quoted "attractions" ++ ": "
           ++ quoted "main tourist sites" ++ ",";
         "    " ++ quoted "transportation" ++ ": "
           ++ quoted "how to get around" ++ ",";
         "    " ++ quoted "food_and_dining" ++ ": "
           ++ quoted "food recommendations" ++ ",";
         "    " ++ quoted "tips" ++ ": " ++ quoted "practical advice";
         "}";
         ""]).

Definition required_keys : list string :=
  ["overview"; "attractions"; "transportation"; "food_and_dining"; "tips"].

(** [[key for key in required_keys if key not in result]] *)
Fixpoint missing_from (decoded : value) (required : list string)
  : result (list string) :=
  match required with
  | [] => Ok []
  | key :: rest =>
      present <- py_in key decoded ;;
      missing <- missing_from decoded rest ;;
      Ok (if present : bool then missing else key :: missing)
  end.

(** [bool(v)] *)
Definition value_truthy (v : value) : bool :=
  match v with
  | VNone => false
  | VBool b => b
  | VInt n => negb (Z.eqb n 0)
  | VFloat text => negb (String.eqb text "0.0" || String.eqb text "-0.0")
  | VStr s => negb (String.eqb s "")
  | VList items => match items with [] => false | _ => true end
  | VDict entries => match entries with [] => false | _ => true end
  end.

Section Collaborators.

(** [requests.get(url, headers=headers)], [raise_for_status()] and
    [BeautifulSoup(response.text, 'html.parser')]: the top-level nodes
    of the parsed page, or the exception raised on the way. *)
Variable http_get : string -> result (list node).

(** [ollama_via_openai.chat.completions.create(...)] followed by
    [response.choices[0].message.content]: the messages sent, as
    (role, content) pairs, and the content that comes back, which the
    client allows to be [None]. *)
Variable chat_create : list (string * string) -> result (option string).

(** [json.loads]; a text that is not JSON gives [JSONDecodeError]. *)
Variable json_loads : string -> result value.

Definition scrape_destination_info (destination : string) (w : world)
  : option info_dict * world :=
  let formatted_destination := replace_space destination in
  let url := "https://wikitravel.org/en/" ++ formatted_destination in
  let w := count_fetch w in
  match http_get url with
  | Raise e => (None, print (ErrorLine "Error scraping data: " e) w)
  | Ok top =>
      let soup := document top in
      match find_with_attr soup "div" "id" "mw-content-text" with
      | None => (None, w)
      | Some content =>
          match extract content with
          | Ok info => (Some info, w)
          | Raise e => (None, print (ErrorLine "Error scraping data: " e) w)
          end
      end
  end.

(** The body of the inner [try], once the content is at hand. *)
Definition decode_and_check (content : option string) (w : world)
  : result (option value * world) :=
  decoded <- match content with
             | Some text => json_loads text
             | None => Raise TypeError
             end ;;
  missing_keys <- missing_from decoded required_keys ;;
  match missing_keys with
  | [] => Ok (Some decoded, w)
  | _ =>
      Ok (None,
          print (Line ("Missing required keys: "
                       ++ py_repr (VList (map VStr missing_keys)))) w)
  end.

Definition generate_guide (destination : string) (content : info_dict)
                          (w : world) : option value * world :=
  match get_user_prompt destination content with
  | Raise e => (None, print (ErrorLine "Error generating guide: " e) w)
  | Ok user_prompt =>
      let w := count_completion w in
      match chat_create [("system", get_system_prompt);
                         ("user", user_prompt)] with
      | Raise e => (None, print (ErrorLine "Error generating guide: " e) w)
      | Ok message_content =>
          match decode_and_check message_content w with
          | Ok out => out
          | Raise (JSONDecodeError msg) =>
              let w := print (ErrorLine "JSON parsing error: "
                                        (JSONDecodeError msg)) w in
              let w := print (Line "Problematic content:") w in
              let w := print (Line (match message_content with
                                    | Some text => text
                                    | None => "None"
                                    end)) w in
              (None, w)
          | Raise e =>
              (None, print (ErrorLine "Error generating guide: " e) w)
          end
      end
  end.

(** [create_travel_guide]; the exception, if any, is the one that
    leaves the function. *)
Definition create_travel_guide (destination : string) (w : world)
  : option exn * world :=
  let w := print (Line ("Scraping information for " ++ destination
                        ++ "...")) w in
  match scrape_destination_info destination w with
  | (None, w) | (Some [], w) =>
      (None, print (Line "Failed to scrape content") w)
  | (Some content, w) =>
      let w := print (Line "Generating guide...") w in
      match generate_guide destination content w with
      | (None, w) => (None, print (Line "Failed to generate guide") w)
      | (Some guide_data, w) =>
          if value_truthy guide_data then
            match format_guide guide_data destination with
            | Ok markdown_guide => (None, display markdown_guide w)
            | Raise e => (Some e, w)
            end
          else (None, print (Line "Failed to generate guide") w)
      end
  end.

End Collaborators.

End Pipeline.

Import Pipeline.

(* ================================================================== *)
(** * Vocabulary of the statements *)
(* ================================================================== *)

Unset Implicit Arguments.

(** ** The renderer *)

(** [appends f]: running [f] on [text] gives [text] followed by what [f]
    gives on the empty text, and raises exactly when that does. *)
Definition appends (f : string -> result string) : Prop :=
  forall text, f text = (s <- f "" ;; Ok (text ++ s)).

(** An element of [attractions] that the loop can render. *)
Definition has_name_and_description (attraction : value) : Prop :=
  exists name description,
    subscript attraction "name" = Ok name /\
    subscript attraction "description" = Ok description.

(** [text.split('\n')] *)
Fixpoint lines (text : string) : list string :=
  match text with
  | EmptyString => [EmptyString]
  | String c rest =>
      if Ascii.eqb c "010" then EmptyString :: lines rest
      else match lines rest with
           | first :: others => String c first :: others
           | [] => [String c EmptyString]
           end
  end.

(** A text that is empty or ends with a line feed. *)
Definition ends_line (text : string) : Prop :=
  text = "" \/ exists body, text = body ++ nl.

(** A key that is absent from [d], or bound to a plain string none of
    whose lines is [line]. *)
Definition plain_without_line (d : list (string * value)) (key line : string)
  : Prop :=
  Dict.get d key = None
  \/ exists s, Dict.get d key = Some (VStr s) /\ ~ In line (lines s).

(** The header line that goes with each key. *)
Definition header_lines : list (string * string) :=
  [("overview", "## Overview"); ("attractions", "## Must-See Attractions");
   ("transportation", "## Getting Around");
   ("food_and_dining", "## Food & Dining"); ("tips", "## Practical Tips")].

(** The five blocks of [format_guide] with the key each one looks at. *)
Definition blocks : list (string * (value -> string -> result string)) :=
  [("overview", overview_block); ("attractions", attractions_block);
   ("transportation", transportation_block); ("food_and_dining", food_block);
   ("tips", tips_block)].

(** ** The extractor *)

Fixpoint take_while {A : Type} (keep : A -> bool) (l : list A) : list A :=
  match l with
  | [] => []
  | x :: rest => if keep x then x :: take_while keep rest else []
  end.

(** The tags among a run of siblings, each with the siblings after it. *)
Fixpoint tag_siblings (l : list node) : list element :=
  match l with
  | [] => []
  | Tag nm at' cs :: rest => Element nm at' cs rest :: tag_siblings rest
  | _ :: rest => tag_siblings rest
  end.

(** The tags a walk along [find_next_sibling] visits from [current] on. *)
Definition walk_from (current : option element) : list element :=
  match current with
  | Some e => e :: tag_siblings (next_siblings e)
  | None => []
  end.

Definition is_p (e : element) : bool := String.eqb (name e) "p".
Definition paragraph_text (e : element) : string := strip (get_text e).

Definition is_section_heading (e : element) : bool :=
  existsb (String.eqb (name e)) ["h2"; "h3"].

Module Spec.

(** The overview in the words of the specification: the paragraphs that
    come before the first heading of the container, in document order,
    joined by single spaces. *)
Definition is_heading (e : element) : bool :=
  existsb (String.eqb (name e)) ["h1"; "h2"; "h3"; "h4"; "h5"; "h6"].

Definition paragraphs_before_first_heading (content : element)
  : list element :=
  filter is_p (take_while (fun e => negb (is_heading e)) (descendants content)).

Definition overview (content : element) : string :=
  join " " (map paragraph_text (paragraphs_before_first_heading content)).

End Spec.

(** The run the code collects: the first [<p>] of the container, wherever
    it is, and the tags that follow it as siblings, up to the first one
    that is not a [<p>]. *)
Definition first_paragraph_run (content : element) : list element :=
  take_while is_p (walk_from (find content "p")).

Definition five_keys : list string :=
  ["overview"; "attractions"; "transportation"; "food"; "tips"].

Definition section_keys : list string :=
  ["attractions"; "transportation"; "food"; "tips"].

(** [current_section] is [None] or one of the four section names. *)
Definition pointer_ok (current_section : option string) : Prop :=
  match current_section with
  | None => True
  | Some key => In key section_keys
  end.

(** The keywords of the [if]/[elif] chain. *)
Definition keywords : list string :=
  ["see"; "sight"; "get around"; "transport"; "eat"; "food"; "understand";
   "tips"].

Definition unrecognized (heading_text : string) : bool :=
  forallb (fun kw => negb (contains kw heading_text)) keywords.

(** The section a heading names by itself, if any. *)
Definition maps_to (heading : element) (key : string) : Prop :=
  update_section (lower (get_text heading)) None = Some key.

Module Pages.

Definition h2 (text : string) : node := Tag "h2" [] [Text text].
Definition p (text : string) : node := Tag "p" [] [Text text].

Definition container (contents : list node) : element :=
  Element "div" [("id", "mw-content-text")] contents [].

(** A page whose first paragraph comes after the first heading. *)
Definition heading_first : element :=
  container [h2 "See"; p "Museums."].

(** A page whose paragraphs before the first heading are interrupted by
    a table. *)
Definition interrupted : element :=
  container [p "A city."; Tag "table" [] []; p "On a river."; h2 "See";
             p "Museums."].

(** "History" after "Eat". *)
Definition eat_then_history : element :=
  container [p "A city."; h2 "Eat"; p "Try the bread."; Tag "ul" [] [];
             p "And the cheese."; h2 "History"; p "Founded long ago."].

(** "See", then "Get around", then "Sights". *)
Definition see_then_sights : element :=
  container [h2 "See"; p "Museums."; p "Parks."; h2 "Get around";
             p "By metro."; Tag "h3" [] [Text "Sights"]; p "The tower."].

End Pages.

(** ** Scenarios *)

(** Stand-ins for the collaborators, for the scenarios below. *)
Module Stub.

Definition scraped : info_dict :=
  [("overview", "A city."); ("attractions", ""); ("transportation", "");
   ("food", ""); ("tips", "")].

(** A page from which [scraped] is extracted. *)
Definition http_get (url : string) : result (list node) :=
  Ok [Tag "html" []
        [Tag "body" []
           [Tag "div" [("id", "mw-content-text")] [Pages.p " A city. "]]]].

Definition refusal : string := "Sorry, I cannot help with that.".
Definition answer : string := "<the five keys>".
Definition answer_without_tips : string := "<four keys>".

Definition chat_refuses (messages : list (string * string))
  : result (option string) := Ok (Some refusal).
Definition chat_answers (messages : list (string * string))
  : result (option string) := Ok (Some answer).
Definition chat_omits_tips (messages : list (string * string))
  : result (option string) := Ok (Some answer_without_tips).

(** A decoder that knows the two answers and rejects everything else. *)
Definition json_loads (text : string) : result value :=
  if String.eqb text answer then
    Ok (VDict [("overview", VStr "X is great.");
               ("attractions", VStr "1. Tower");
               ("transportation", VStr "Metro");
               ("food_and_dining", VStr "Cafes");
               ("tips", VStr "Be safe")])
  else if String.eqb text answer_without_tips then
    Ok (VDict [("overview", VStr "X is great.");
               ("attractions", VStr "1. Tower");
               ("transportation", VStr "Metro");
               ("food_and_dining", VStr "Cafes")])
  else Raise (JSONDecodeError "Expecting value: line 1 column 1 (char 0)").

End Stub.

(** ** The scan as a whole *)

(** What the scan puts under [key]: the texts of the headings that are
    processed while [current_section] is [key], one after the other. *)
Fixpoint gathered (key : string) (headings : list element)
                  (current_section : option string) : string :=
  match headings with
  | [] => ""
  | heading :: rest =>
      let current_section :=
        update_section (lower (get_text heading)) current_section in
      match current_section with
      | Some k => if String.eqb k key then section_text heading else ""
      | None => ""
      end ++ gathered key rest current_section
  end.

(** "See", then "History", then "Sights": the heading in the middle
    matches no keyword. *)
Definition see_history_sights : element :=
  Pages.container [Pages.h2 "See"; Pages.p "A."; Pages.h2 "History";
                   Pages.p "B."; Pages.h2 "Sights"; Pages.p "C."].

(** The headings of a container, as the scan visits them. *)
Definition headings_of (content : element) : list element :=
  find_all content ["h2"; "h3"].

(** The address that is fetched for a destination. *)
Definition url_of (destination : string) : string :=
  "https://wikitravel.org/en/" ++ replace_space destination.

(** The messages sent to the model for a prompt. *)
Definition messages_for (user_prompt : string) : list (string * string) :=
  [("system", get_system_prompt); ("user", user_prompt)].

(** The progress line printed first. *)
Definition scraping_line (destination : string) : printed :=
  Line ("Scraping information for " ++ destination ++ "...").

Create HintDb lines.

(* ================================================================== *)
(** * Properties of the renderer *)
(* ================================================================== *)

Section StringFacts.

Lemma append_assoc (a b c : string) : (a ++ b) ++ c = a ++ (b ++ c).
Proof. induction a as [|x a IH]; simpl; [reflexivity | now rewrite IH]. Qed.

Lemma append_nil_r (a : string) : a ++ "" = a.
Proof. induction a as [|x a IH]; simpl; [reflexivity | now rewrite IH]. Qed.

Lemma append_nil_l (a : string) : "" ++ a = a.
Proof. reflexivity. Qed.

Lemma Ok_inj (A : Type) (a b : A) : Ok a = Ok b -> a = b.
Proof. intros H. now injection H. Qed.

End StringFacts.

(** ** Every block only appends to the text it is given *)

Section Appending.

Lemma items_loop_appends entries text :
  items_loop entries text = text ++ items_loop entries "".
Proof.
  revert text. induction entries as [|[method info] rest IH]; intros text;
    cbn [items_loop].
  - now rewrite append_nil_r.
  - rewrite IH, (IH ("" ++ _)), append_nil_l. now rewrite !append_assoc.
Qed.

Lemma tips_loop_appends tips text :
  tips_loop tips text = text ++ tips_loop tips "".
Proof.
  revert text. induction tips as [|tip rest IH]; intros text; cbn [tips_loop].
  - now rewrite append_nil_r.
  - rewrite IH, (IH ("" ++ _)), append_nil_l. now rewrite !append_assoc.
Qed.

Lemma dining_loop_appends dining text :
  dining_loop dining text = text ++ dining_loop dining "".
Proof.
  revert text. induction dining as [|item rest IH]; intros text;
    cbn [dining_loop].
  - now rewrite append_nil_r.
  - destruct item; rewrite IH;
      match goal with
      | |- _ = _ ++ dining_loop _ ?t => rewrite (IH t)
      end;
      try rewrite (items_loop_appends _ text);
      rewrite ?append_nil_l; now rewrite !append_assoc.
Qed.

Lemma attractions_loop_appends attractions :
  appends (attractions_loop attractions).
Proof.
  induction attractions as [|attraction rest IH]; intros text;
    cbn [attractions_loop bind].
  - now rewrite append_nil_r.
  - destruct (subscript attraction "name") as [name|e];
      cbn [bind]; [|reflexivity].
    destruct (subscript attraction "description") as [description|e];
      cbn [bind]; [|reflexivity].
    rewrite !append_nil_l, IH, (IH (_ ++ _)).
    destruct (attractions_loop rest "") as [s|e]; cbn [bind]; [|reflexivity].
    now rewrite !append_assoc.
Qed.

Ltac block_appends x :=
  let present := fresh "present" in
  intros text; cbv beta delta [overview_block attractions_block
    transportation_block food_block tips_block];
  match goal with
  | |- context [py_in ?k ?g] => destruct (py_in k g) as [present|]
  end; cbn [bind]; [|reflexivity];
  destruct present; cbn [bind]; [|now rewrite append_nil_r];
  match goal with
  | |- context [subscript ?g ?k] => destruct (subscript g k) as [x|]
  end; cbn [bind]; [|reflexivity]; rewrite ?append_nil_l.

Lemma overview_block_appends guide_data :
  appends (overview_block guide_data).
Proof. block_appends x. reflexivity. Qed.

Lemma attractions_block_appends guide_data :
  appends (attractions_block guide_data).
Proof.
  block_appends x. destruct x; cbn [bind]; try (now rewrite append_assoc).
  rewrite attractions_loop_appends.
  rewrite (attractions_loop_appends items h_attractions).
  destruct (attractions_loop items "") as [s|e]; cbn [bind]; [|reflexivity].
  now rewrite !append_assoc.
Qed.

Lemma transportation_block_appends guide_data :
  appends (transportation_block guide_data).
Proof.
  block_appends x. destruct x; cbn [bind]; try (now rewrite append_assoc).
  rewrite items_loop_appends, (items_loop_appends entries h_transportation).
  now rewrite !append_assoc.
Qed.

Lemma food_block_appends guide_data :
  appends (food_block guide_data).
Proof.
  block_appends x. destruct x; cbn [bind]; try (now rewrite append_assoc).
  rewrite dining_loop_appends, (dining_loop_appends items h_food).
  now rewrite !append_assoc.
Qed.

Lemma tips_block_appends guide_data :
  appends (tips_block guide_data).
Proof.
  block_appends x. destruct x; cbn [bind]; try (now rewrite append_assoc).
  rewrite tips_loop_appends, (tips_loop_appends items h_tips).
  now rewrite !append_assoc.
Qed.

End Appending.

(** ** The document is the title followed by the five blocks *)

Section Blocks.

Lemma format_guide_blocks guide_data destination :
  format_guide guide_data destination =
  (o <- overview_block guide_data "" ;;
   a <- attractions_block guide_data "" ;;
   t <- transportation_block guide_data "" ;;
   f <- food_block guide_data "" ;;
   p <- tips_block guide_data "" ;;
   Ok (title destination ++ o ++ a ++ t ++ f ++ p)).
Proof.
  unfold format_guide.
  rewrite overview_block_appends.
  destruct (overview_block guide_data "") as [o|]; cbn [bind]; [|reflexivity].
  rewrite attractions_block_appends.
  destruct (attractions_block guide_data "") as [a|]; cbn [bind]; [|reflexivity].
  rewrite transportation_block_appends.
  destruct (transportation_block guide_data "") as [t|]; cbn [bind];
    [|reflexivity].
  rewrite food_block_appends.
  destruct (food_block guide_data "") as [f|]; cbn [bind]; [|reflexivity].
  rewrite tips_block_appends.
  destruct (tips_block guide_data "") as [p|]; cbn [bind]; [|reflexivity].
  now rewrite !append_assoc.
Qed.

(** On a mapping, a block whose key is there looks the value up and never
    misses it. *)
Lemma present_subscript d key :
  Dict.mem key d = true ->
  exists x, Dict.get d key = Some x /\ subscript (VDict d) key = Ok x.
Proof.
  unfold Dict.mem, subscript. destruct (Dict.get d key) as [x|]; [|discriminate].
  intros _. now exists x.
Qed.

Lemma absent_mem (d : list (string * value)) key :
  Dict.get d key = None -> Dict.mem key d = false.
Proof. unfold Dict.mem. now intros ->. Qed.

Lemma present_mem (d : list (string * value)) key x :
  Dict.get d key = Some x -> Dict.mem key d = true.
Proof. unfold Dict.mem. now intros ->. Qed.

Lemma attractions_loop_returns attractions text :
  returns (attractions_loop attractions text) <->
  Forall has_name_and_description attractions.
Proof.
  revert text. induction attractions as [|attraction rest IH]; intros text;
    cbn [attractions_loop].
  - split; [constructor | intros _; now exists text].
  - split.
    + intros [out H].
      destruct (subscript attraction "name") as [name|] eqn:Hn;
        cbn [bind] in H; [|discriminate].
      destruct (subscript attraction "description") as [description|] eqn:Hd;
        cbn [bind] in H; [|discriminate].
      constructor.
      * now exists name, description.
      * apply (IH (text ++ sub_heading (py_str name) ++ para description)).
        exists out. now rewrite <- append_assoc.
    + intros H. inversion H as [|? ? (name & description & Hn & Hd) Hrest];
        subst. rewrite Hn, Hd. cbn [bind]. now apply IH.
Qed.

Ltac block_on_mapping d key x Hget :=
  cbv beta delta [overview_block attractions_block transportation_block
                  food_block tips_block];
  cbn [py_in bind];
  let Hmem := fresh "Hmem" in
  destruct (Dict.mem key d) eqn:Hmem;
  [destruct (present_subscript _ _ Hmem) as (x & Hget & ->); cbn [bind]
  |].

Lemma overview_block_returns d text :
  returns (overview_block (VDict d) text).
Proof. block_on_mapping d "overview" x Hget; now eexists. Qed.

Lemma transportation_block_returns d text :
  returns (transportation_block (VDict d) text).
Proof.
  block_on_mapping d "transportation" x Hget; [destruct x|]; now eexists.
Qed.

Lemma food_block_returns d text :
  returns (food_block (VDict d) text).
Proof.
  block_on_mapping d "food_and_dining" x Hget; [destruct x|]; now eexists.
Qed.

Lemma tips_block_returns d text :
  returns (tips_block (VDict d) text).
Proof. block_on_mapping d "tips" x Hget; [destruct x|]; now eexists. Qed.

Lemma attractions_block_returns_iff d text :
  returns (attractions_block (VDict d) text) <->
  match Dict.get d "attractions" with
  | Some (VList items) => Forall has_name_and_description items
  | _ => True
  end.
Proof.
  block_on_mapping d "attractions" x Hget.
  - rewrite Hget. destruct x; try (split; [easy | intros _; now eexists]).
    apply attractions_loop_returns.
  - unfold Dict.mem in Hmem. destruct (Dict.get d "attractions");
      [discriminate|]. split; [easy | intros _; now eexists].
Qed.

(** On a mapping, [format_guide] returns exactly when the value under
    [attractions], if it is a list, holds only elements with a [name] and
    a [description]. *)
Lemma format_guide_returns_iff d destination :
  returns (format_guide (VDict d) destination) <->
  match Dict.get d "attractions" with
  | Some (VList items) => Forall has_name_and_description items
  | _ => True
  end.
Proof.
  rewrite <- (attractions_block_returns_iff d "").
  rewrite format_guide_blocks.
  destruct (overview_block_returns d "") as [o ->].
  destruct (transportation_block_returns d "") as [t ->].
  destruct (food_block_returns d "") as [f ->].
  destruct (tips_block_returns d "") as [p ->].
  cbn [bind].
  destruct (attractions_block (VDict d) "") as [a|e]; cbn [bind].
  - split; intros _; now eexists.
  - split; intros [? H]; discriminate.
Qed.

End Blocks.

(** ** What the renderer does on the shapes the model sends *)

Section RenderedShapes.

(** C1. [format_guide] does raise on well-formed JSON: with a list of
    plain strings under [attractions], every other key a plain string,
    the subscript [attraction['name']] raises [TypeError] and no document
    is returned. *)
Theorem format_guide_raises_on_list_of_strings :
  format_guide
    (VDict [("overview", VStr "Paris is great.");
            ("attractions", VList [VStr "Eiffel Tower"; VStr "Louvre"]);
            ("transportation", VStr "Metro");
            ("food_and_dining", VStr "Cafes");
            ("tips", VStr "Be safe")])
    "Paris"
  = Raise TypeError.
Proof. reflexivity. Qed.

(** C2. With [[{"name":"Tower","description":"Tall"}]] under
    [attractions] the document has the sub-heading "Tower" followed by the
    paragraph "Tall"; with [[{"mode":"Bus","details":"Cheap"}]] there is no
    fallback: [attraction['name']] raises [KeyError], whereas the [tips]
    branch renders the very same list as a bullet holding the raw text
    of the mapping. *)
Theorem attractions_tower_and_bus :
  format_guide
    (VDict [("attractions",
             VList [VDict [("name", VStr "Tower");
                           ("description", VStr "Tall")]])])
    "X"
  = Ok ("# Travel Guide: X" ++ nl ++ nl
        ++ "## Must-See Attractions" ++ nl ++ nl
        ++ "### Tower" ++ nl
        ++ "Tall" ++ nl ++ nl)
  /\
  format_guide
    (VDict [("attractions",
             VList [VDict [("mode", VStr "Bus");
                           ("details", VStr "Cheap")]])])
    "X"
  = Raise (KeyError "name")
  /\
  format_guide
    (VDict [("tips",
             VList [VDict [("mode", VStr "Bus");
                           ("details", VStr "Cheap")]])])
    "X"
  = Ok ("# Travel Guide: X" ++ nl ++ nl
        ++ "## Practical Tips" ++ nl ++ nl
        ++ "- {'mode': 'Bus', 'details': 'Cheap'}" ++ nl).
Proof. repeat split; reflexivity. Qed.

(** C8. When the five values are plain strings the document is the title
    line followed by the headers "Overview", "Must-See Attractions",
    "Getting Around", "Food & Dining" and "Practical Tips", in this order,
    each followed by the literal value of its key. *)
Theorem format_guide_plain_strings d destination o a t f p :
  Dict.get d "overview" = Some (VStr o) ->
  Dict.get d "attractions" = Some (VStr a) ->
  Dict.get d "transportation" = Some (VStr t) ->
  Dict.get d "food_and_dining" = Some (VStr f) ->
  Dict.get d "tips" = Some (VStr p) ->
  format_guide (VDict d) destination
  = Ok ("# Travel Guide: " ++ destination ++ nl ++ nl
        ++ "## Overview" ++ nl ++ nl ++ o ++ nl ++ nl
        ++ "## Must-See Attractions" ++ nl ++ nl ++ a ++ nl ++ nl
        ++ "## Getting Around" ++ nl ++ nl ++ t ++ nl ++ nl
        ++ "## Food & Dining" ++ nl ++ nl ++ f ++ nl ++ nl
        ++ "## Practical Tips" ++ nl ++ nl ++ p ++ nl ++ nl).
Proof.
  intros Ho Ha Ht Hf Hp.
  unfold format_guide, overview_block, attractions_block,
    transportation_block, food_block, tips_block.
  cbn [py_in subscript].
  rewrite (present_mem _ _ _ Ho), (present_mem _ _ _ Ha), (present_mem _ _ _ Ht),
    (present_mem _ _ _ Hf), (present_mem _ _ _ Hp), Ho, Ha, Ht, Hf, Hp.
  cbn [bind].
  unfold title, h_overview, h_attractions, h_transportation, h_food, h_tips,
    para. cbn [py_str].
  now rewrite !append_assoc.
Qed.

Lemma format_guide_plain_strings_witness :
  format_guide
    (VDict [("overview", VStr "X is great.");
            ("attractions", VStr "1. Tower");
            ("transportation", VStr "Metro");
            ("food_and_dining", VStr "Cafes");
            ("tips", VStr "Be safe")])
    "X"
  = Ok ("# Travel Guide: " ++ "X" ++ nl ++ nl
        ++ "## Overview" ++ nl ++ nl ++ "X is great." ++ nl ++ nl
        ++ "## Must-See Attractions" ++ nl ++ nl ++ "1. Tower" ++ nl ++ nl
        ++ "## Getting Around" ++ nl ++ nl ++ "Metro" ++ nl ++ nl
        ++ "## Food & Dining" ++ nl ++ nl ++ "Cafes" ++ nl ++ nl
        ++ "## Practical Tips" ++ nl ++ nl ++ "Be safe" ++ nl ++ nl).
Proof.
  apply (format_guide_plain_strings
           [("overview", VStr "X is great.");
            ("attractions", VStr "1. Tower");
            ("transportation", VStr "Metro");
            ("food_and_dining", VStr "Cafes");
            ("tips", VStr "Be safe")]
           "X" "X is great." "1. Tower" "Metro" "Cafes" "Be safe");
    reflexivity.
Defined.



End RenderedShapes.

(* ================================================================== *)
(** * Properties of the extractor *)
(* ================================================================== *)

Section Walks.

Lemma walk_from_first_tag l : walk_from (first_tag l) = tag_siblings l.
Proof.
  induction l as [|[s|s|nm a cs] l IH]; cbn [first_tag tag_siblings];
    try exact IH; reflexivity.
Qed.

Lemma intro_loop_spec current intro_paras :
  intro_loop current intro_paras
  = (intro_paras
       ++ map paragraph_text (take_while is_p (walk_from current)))%list.
Proof.
  funelim (intro_loop current intro_paras).
  - cbn. now rewrite app_nil_r.
  - match goal with IH : intro_loop _ _ = (_ ++ _)%list |- _ => rewrite IH end.
    unfold find_next_sibling. rewrite walk_from_first_tag.
    cbn [walk_from take_while]. unfold is_p at 2. rewrite Heq.
    cbn [map]. now rewrite <- app_assoc.
  - cbn [walk_from take_while]. unfold is_p. rewrite Heq. cbn.
    now rewrite app_nil_r.
Qed.

Lemma section_loop_spec next_elem section_content :
  section_loop next_elem section_content
  = (section_content
       ++ map paragraph_text
            (filter is_p
               (take_while (fun e => negb (is_section_heading e))
                           (walk_from next_elem))))%list.
Proof.
  funelim (section_loop next_elem section_content).
  - cbn. now rewrite app_nil_r.
  - cbn [walk_from take_while]. unfold is_section_heading. rewrite Heq.
    cbn. now rewrite app_nil_r.
  - match goal with IH : section_loop _ _ = (_ ++ _)%list |- _ => rewrite IH end.
    unfold find_next_sibling. rewrite walk_from_first_tag.
    cbn [walk_from take_while]. unfold is_section_heading at 2.
    rewrite Heq. cbn [negb filter]. unfold is_p at 2.
    destruct (name e =? "p"); cbn [map]; [now rewrite <- app_assoc|].
    reflexivity.
Qed.

End Walks.

Section DictFacts.

Variable V : Type.
Implicit Types (d : list (string * V)) (k : string).

Lemma get_of_key d k :
  In k (Dict.keys d) -> exists v, Dict.get d k = Some v.
Proof.
  induction d as [|[k' v'] d IH]; cbn; [easy|].
  intros [->|Hin].
  - rewrite String.eqb_refl. now eexists.
  - destruct (String.eqb k' k); [now eexists | now apply IH].
Qed.

Lemma keys_set d k v v' :
  Dict.get d k = Some v -> Dict.keys (Dict.set d k v') = Dict.keys d.
Proof.
  induction d as [|[k' x] d IH]; cbn; [discriminate|].
  destruct (String.eqb k' k); cbn; [reflexivity|].
  intros H. f_equal. now apply IH.
Qed.

Lemma get_set_same d k v : Dict.get (Dict.set d k v) k = Some v.
Proof.
  induction d as [|[k' x] d IH]; cbn.
  - now rewrite String.eqb_refl.
  - destruct (String.eqb k' k) eqn:E; cbn; rewrite E; [reflexivity|exact IH].
Qed.

Lemma get_set_other d k k' v :
  k <> k' -> Dict.get (Dict.set d k v) k' = Dict.get d k'.
Proof.
  intros Hne. induction d as [|[k0 x] d IH]; cbn.
  - apply String.eqb_neq in Hne. now rewrite Hne.
  - destruct (String.eqb k0 k) eqn:E; cbn.
    + apply String.eqb_eq in E. subst k0.
      apply String.eqb_neq in Hne. now rewrite Hne.
    + destruct (String.eqb k0 k'); [reflexivity|exact IH].
Qed.

End DictFacts.

Section Scan.

Lemma update_section_cases heading_text current_section :
  update_section heading_text current_section = current_section
  \/ exists key, In key section_keys /\
                 forall cs, update_section heading_text cs = Some key.
Proof.
  unfold update_section, section_keys.
  destruct (contains "see" heading_text || contains "sight" heading_text).
  { right. exists "attractions". split; [cbn; tauto | reflexivity]. }
  destruct (contains "get around" heading_text
            || contains "transport" heading_text).
  { right. exists "transportation". split; [cbn; tauto | reflexivity]. }
  destruct (contains "eat" heading_text || contains "food" heading_text).
  { right. exists "food". split; [cbn; tauto | reflexivity]. }
  destruct (contains "understand" heading_text
            || contains "tips" heading_text).
  { right. exists "tips". split; [cbn; tauto | reflexivity]. }
  now left.
Qed.

Lemma update_section_unrecognized heading_text current_section :
  unrecognized heading_text = true ->
  update_section heading_text current_section = current_section.
Proof.
  unfold unrecognized, update_section. cbn [forallb keywords].
  rewrite !andb_true_iff, !negb_true_iff.
  intros (-> & -> & -> & -> & -> & -> & -> & -> & _). reflexivity.
Qed.

Lemma maps_to_any heading key :
  maps_to heading key ->
  In key section_keys /\
  forall cs, update_section (lower (get_text heading)) cs = Some key.
Proof.
  unfold maps_to. intros H.
  destruct (update_section_cases (lower (get_text heading)) None)
    as [E|(k & Hin & Hall)].
  - rewrite E in H. discriminate.
  - rewrite Hall in H. injection H as <-. now split.
Qed.

Lemma section_key_truthy key : In key section_keys -> truthy (Some key) = true.
Proof.
  unfold section_keys. cbn.
  intros [<-|[<-|[<-|[<-|[]]]]]; reflexivity.
Qed.

Lemma section_key_not_overview key :
  In key section_keys -> key <> "overview".
Proof.
  unfold section_keys. cbn.
  intros [<-|[<-|[<-|[<-|[]]]]]; discriminate.
Qed.

Lemma section_key_in_five key : In key section_keys -> In key five_keys.
Proof. unfold section_keys, five_keys. cbn. tauto. Qed.

(** A heading whose section is [key] appends its text under [key]. *)
Lemma heading_step_some current_section info heading key old :
  update_section (lower (get_text heading)) current_section = Some key ->
  In key section_keys ->
  Dict.get info key = Some old ->
  heading_step (current_section, info) heading
  = Ok (Some key, Dict.set info key (old ++ section_text heading)).
Proof.
  intros Hup Hin Hget. unfold heading_step. cbn [fst snd].
  rewrite Hup, (section_key_truthy _ Hin). unfold iadd. now rewrite Hget.
Qed.

Lemma heading_step_none current_section info heading :
  update_section (lower (get_text heading)) current_section = None ->
  heading_step (current_section, info) heading = Ok (None, info).
Proof. intros Hup. unfold heading_step. cbn [fst snd]. now rewrite Hup. Qed.

(** What the scan keeps true: the pointer is a section name, the keys are
    the five keys, and the overview is not touched. *)
Lemma heading_step_keeps st heading :
  pointer_ok (fst st) ->
  Dict.keys (snd st) = five_keys ->
  exists st',
    heading_step st heading = Ok st'
    /\ pointer_ok (fst st')
    /\ Dict.keys (snd st') = five_keys
    /\ Dict.get (snd st') "overview" = Dict.get (snd st) "overview".
Proof.
  destruct st as [cs info]. cbn [fst snd]. intros Hp Hk.
  destruct (update_section (lower (get_text heading)) cs) as [key|] eqn:Hup.
  - assert (Hin : In key section_keys).
    { destruct (update_section_cases (lower (get_text heading)) cs)
        as [E|(k & Hin & Hall)].
      - rewrite E in Hup. subst cs. exact Hp.
      - rewrite Hall in Hup. now injection Hup as <-. }
    destruct (get_of_key _ info key) as [old Hget].
    { rewrite Hk. now apply section_key_in_five. }
    rewrite (heading_step_some _ _ _ _ _ Hup Hin Hget).
    eexists. split; [reflexivity|]. cbn [fst snd]. repeat split.
    + exact Hin.
    + now rewrite (keys_set _ _ _ _ _ Hget).
    + apply get_set_other. now apply section_key_not_overview.
  - rewrite (heading_step_none _ _ _ Hup).
    eexists. split; [reflexivity|]. cbn [fst snd]. now repeat split.
Qed.

Lemma headings_loop_keeps headings st :
  pointer_ok (fst st) ->
  Dict.keys (snd st) = five_keys ->
  exists st',
    headings_loop headings st = Ok st'
    /\ pointer_ok (fst st')
    /\ Dict.keys (snd st') = five_keys
    /\ Dict.get (snd st') "overview" = Dict.get (snd st) "overview".
Proof.
  revert st. induction headings as [|heading rest IH]; intros st Hp Hk.
  - exists st. now repeat split.
  - destruct (heading_step_keeps st heading Hp Hk) as (st1 & E1 & Hp1 & Hk1 & Ho1).
    destruct (IH st1 Hp1 Hk1) as (st2 & E2 & Hp2 & Hk2 & Ho2).
    exists st2. cbn [headings_loop]. rewrite E1. cbn [bind].
    repeat split; try assumption. now rewrite Ho2.
Qed.

(** [extract] always returns, with the five keys and the overview that
    the first loop computed. *)
Lemma extract_returns content :
  exists info,
    extract content = Ok info
    /\ Dict.keys info = five_keys
    /\ Dict.get info "overview" = Some (overview_of content).
Proof.
  unfold extract.
  destruct (headings_loop_keeps (find_all content ["h2"; "h3"])
              (None, Dict.set empty_info "overview" (overview_of content)))
    as (st & E & _ & Hk & Ho); [exact I | reflexivity |].
  exists (snd st). rewrite E. cbn [bind]. repeat split; [exact Hk|].
  rewrite Ho. reflexivity.
Qed.

End Scan.

(** ** The claims about the extractor *)

Section ExtractorClaims.

(** C3, as stated, fails.  On a page whose first paragraph comes after
    the first heading the overview is that paragraph, although no
    paragraph comes before the first heading; and when a table stands
    between two paragraphs that come before the first heading, the
    overview has the first of them only. *)
Lemma overview_is_not_the_paragraphs_before_the_first_heading :
  (extract Pages.heading_first
   = Ok [("overview", "Museums."); ("attractions", "Museums.");
         ("transportation", ""); ("food", ""); ("tips", "")]
   /\ Spec.overview Pages.heading_first = "")
  /\ (extract Pages.interrupted
      = Ok [("overview", "A city."); ("attractions", "Museums.");
            ("transportation", ""); ("food", ""); ("tips", "")]
      /\ Spec.overview Pages.interrupted = "A city. On a river.")
  /\ ~ (forall content info,
           extract content = Ok info ->
           Dict.get info "overview" = Some (Spec.overview content)).
Proof.
  assert (E : extract Pages.heading_first
              = Ok [("overview", "Museums."); ("attractions", "Museums.");
                    ("transportation", ""); ("food", ""); ("tips", "")])
    by reflexivity.
  repeat split; try reflexivity.
  intros H. specialize (H _ _ E). discriminate H.
Qed.

(** C3, amended.  The overview is the text of the first run of
    paragraphs: the first [<p>] found in the content container, wherever
    it is, and the tags that follow it as siblings up to the first one
    that is not a [<p>], each stripped, joined by single spaces. *)
Theorem overview_is_first_paragraph_run content :
  exists info,
    extract content = Ok info
    /\ Dict.get info "overview"
       = Some (join " " (map paragraph_text (first_paragraph_run content))).
Proof.
  destruct (extract_returns content) as (info & E & _ & Ho).
  exists info. split; [exact E|]. rewrite Ho. f_equal.
  unfold overview_of, first_paragraph_run. now rewrite intro_loop_spec.
Qed.



(** The page of the fallthrough scenario, run through the whole
    extraction: the paragraph under "History" lands in [food]. *)
Lemma eat_then_history_page :
  extract Pages.eat_then_history
  = Ok [("overview", "A city."); ("attractions", ""); ("transportation", "");
        ("food", "Try the bread. And the cheese.Founded long ago.");
        ("tips", "")].
Proof. reflexivity. Qed.

Lemma headings_loop_app front back st :
  headings_loop (front ++ back) st
  = (st' <- headings_loop front st ;; headings_loop back st').
Proof.
  revert st. induction front as [|heading rest IH]; intros st;
    cbn [headings_loop app bind]; [reflexivity|].
  destruct (heading_step st heading) as [st'|e]; cbn [bind]; [apply IH|].
  reflexivity.
Qed.

End ExtractorClaims.

(** ** The claims about the pipeline around the two routines *)

Section ScrapeClaims.

Variable http_get : string -> result (list node).

(** Without the content container nothing is extracted and nothing is
    printed. *)
Lemma scrape_without_container destination w top :
  http_get ("https://wikitravel.org/en/" ++ replace_space destination)
  = Ok top ->
  find_with_attr (document top) "div" "id" "mw-content-text" = None ->
  scrape_destination_info http_get destination w = (None, count_fetch w).
Proof. intros Hget Hfind. unfold scrape_destination_info. now rewrite Hget, Hfind. Qed.

(** C5. When the fetched page has the content container,
    [scrape_destination_info] returns a mapping whose keys are exactly
    [overview], [attractions], [transportation], [food] and [tips], each
    bound to a string. *)
Theorem scrape_returns_the_five_keys destination w top content :
  http_get ("https://wikitravel.org/en/" ++ replace_space destination)
  = Ok top ->
  find_with_attr (document top) "div" "id" "mw-content-text" = Some content ->
  exists info : list (string * string),
    scrape_destination_info http_get destination w
    = (Some info, count_fetch w)
    /\ Dict.keys info
       = ["overview"; "attractions"; "transportation"; "food"; "tips"]
    /\ forall key, In key (Dict.keys info) ->
                   exists text : string, Dict.get info key = Some text.
Proof.
  intros Hget Hfind.
  destruct (extract_returns content) as (info & E & Hk & _).
  exists info. unfold scrape_destination_info.
  rewrite Hget, Hfind, E. repeat split; [exact Hk|].
  intros key. apply get_of_key.
Qed.

End ScrapeClaims.

Lemma scrape_returns_the_five_keys_witness :
  exists info : list (string * string),
    scrape_destination_info
      (fun _ => Ok [Tag "html" []
                      [Tag "body" []
                         [Tag "div" [("id", "mw-content-text")]
                              (contents Pages.eat_then_history)]]])
      "New York" (World [] 0 0 [])
    = (Some info, count_fetch (World [] 0 0 []))
    /\ Dict.keys info
       = ["overview"; "attractions"; "transportation"; "food"; "tips"]
    /\ forall key, In key (Dict.keys info) ->
                   exists text : string, Dict.get info key = Some text.
Proof.
  exact (scrape_returns_the_five_keys
           (fun _ => Ok [Tag "html" []
                           [Tag "body" []
                              [Tag "div" [("id", "mw-content-text")]
                                   (contents Pages.eat_then_history)]]])
           "New York" (World [] 0 0 [])
           [Tag "html" []
              [Tag "body" []
                 [Tag "div" [("id", "mw-content-text")]
                      (contents Pages.eat_then_history)]]]
           Pages.eat_then_history eq_refl eq_refl).
Defined.

Section GenerateClaims.

Variable http_get : string -> result (list node).
Variable chat_create : list (string * string) -> result (option string).
Variable json_loads : string -> result value.

Lemma missing_from_mapping d required :
  missing_from (VDict d) required
  = Ok (filter (fun key => negb (Dict.mem key d)) required).
Proof.
  induction required as [|key rest IH]; cbn [missing_from filter py_in bind];
    [reflexivity|].
  rewrite IH. cbn [bind]. now destruct (Dict.mem key d).
Qed.

Lemma missing_key_is_listed (d : list (string * value)) key required :
  In key required ->
  Dict.get d key = None ->
  filter (fun key => negb (Dict.mem key d)) required <> [].
Proof.
  intros Hin Hget Hnil.
  assert (Hf : In key (filter (fun key => negb (Dict.mem key d)) required)).
  { apply filter_In. split; [exact Hin|]. now rewrite (absent_mem _ _ Hget). }
  rewrite Hnil in Hf. exact Hf.
Qed.

(** A completion that is not JSON: three lines are printed and there is
    no guide. *)
Lemma generate_guide_not_json destination content w user_prompt text msg :
  get_user_prompt destination content = Ok user_prompt ->
  chat_create [("system", get_system_prompt); ("user", user_prompt)]
  = Ok (Some text) ->
  json_loads text = Raise (JSONDecodeError msg) ->
  generate_guide chat_create json_loads destination content w
  = (None,
     World (stdout w ++ [ErrorLine "JSON parsing error: " (JSONDecodeError msg);
                         Line "Problematic content:";
                         Line text])
           (fetches w) (S (completions w)) (displayed w)).
Proof.
  intros Hp Hc Hj. unfold generate_guide, decode_and_check.
  rewrite Hp, Hc, Hj. cbn [bind]. unfold print, count_completion.
  cbn [stdout fetches completions displayed].
  now rewrite <- !app_assoc.
Qed.

(** A completion that decodes to an object with a required key missing:
    the missing keys are printed and there is no guide. *)
Lemma generate_guide_missing_key destination content w user_prompt text d key :
  get_user_prompt destination content = Ok user_prompt ->
  chat_create [("system", get_system_prompt); ("user", user_prompt)]
  = Ok (Some text) ->
  json_loads text = Ok (VDict d) ->
  In key required_keys ->
  Dict.get d key = None ->
  generate_guide chat_create json_loads destination content w
  = (None,
     World (stdout w
              ++ [Line ("Missing required keys: "
                        ++ py_repr
                             (VList
                                (map VStr
                                     (filter (fun key => negb (Dict.mem key d))
                                             required_keys))))])
           (fetches w) (S (completions w)) (displayed w)).
Proof.
  intros Hp Hc Hj Hin Hget. unfold generate_guide, decode_and_check.
  rewrite Hp, Hc, Hj. cbn [bind]. rewrite missing_from_mapping. cbn [bind].
  pose proof (missing_key_is_listed d key required_keys Hin Hget) as Hne.
  destruct (filter (fun key => negb (Dict.mem key d)) required_keys);
    [now elim Hne | reflexivity].
Qed.

End GenerateClaims.

(** ** Lines of the document *)

Section Lines.

Lemma lines_not_nil a : lines a <> [].
Proof.
  destruct a as [|c a]; cbn [lines]; [discriminate|].
  destruct (Ascii.eqb c "010"); [discriminate|].
  destruct (lines a); discriminate.
Qed.

Lemma lines_app_nl a b : lines (a ++ nl ++ b) = (lines a ++ lines b)%list.
Proof.
  induction a as [|c a IH]; [reflexivity|].
  cbn [append lines]. rewrite IH.
  destruct (Ascii.eqb c "010"); [reflexivity|].
  pose proof (lines_not_nil a) as Hne.
  destruct (lines a); [now elim Hne | reflexivity].
Qed.

Lemma lines_ends_nl a : lines (a ++ nl) = (lines a ++ [""])%list.
Proof.
  rewrite <- (append_nil_r (a ++ nl)), append_assoc. apply lines_app_nl.
Qed.

(** A line of [a ++ b], when [a] is made of whole lines, is a line of
    [a] or a line of [b]. *)
Lemma line_of_app a b line :
  ends_line a ->
  In line (lines (a ++ b)) -> In line (lines a) \/ In line (lines b).
Proof.
  intros [->|[body ->]] Hin.
  - now right.
  - rewrite append_assoc, lines_app_nl in Hin. rewrite lines_ends_nl.
    apply in_app_or in Hin. destruct Hin as [H|H]; [left|now right].
    apply in_or_app. now left.
Qed.

Lemma ends_line_nl a : ends_line (a ++ nl).
Proof. right. now exists a. Qed.

Lemma ends_line_app_nl a b : ends_line (a ++ b ++ nl).
Proof. rewrite <- append_assoc. apply ends_line_nl. Qed.

Lemma ends_line_app2 a b : ends_line a -> ends_line b -> ends_line (a ++ b).
Proof.
  intros Ha [->|[body ->]].
  - now rewrite append_nil_r.
  - apply ends_line_app_nl.
Qed.

Lemma para_ends_line x : ends_line (para x).
Proof. unfold para. apply ends_line_app_nl. Qed.

Lemma sub_heading_ends_line x : ends_line (sub_heading x).
Proof. unfold sub_heading. apply ends_line_app_nl. Qed.

Lemma bullet_ends_line x : ends_line (bullet x).
Proof. unfold bullet. apply ends_line_app_nl. Qed.

Lemma header_ends_line title' : ends_line (title' ++ nl ++ nl).
Proof. apply ends_line_app_nl. Qed.

Lemma title_ends_line destination : ends_line (title destination).
Proof.
  right. exists ("# Travel Guide: " ++ destination ++ nl).
  unfold title. now rewrite !append_assoc.
Qed.

#[local] Hint Resolve ends_line_app2 para_ends_line sub_heading_ends_line
  bullet_ends_line header_ends_line : lines.

Lemma items_loop_ends_line entries text :
  ends_line text -> ends_line (items_loop entries text).
Proof.
  revert text. induction entries as [|[method info] rest IH]; intros text H;
    cbn [items_loop]; [exact H|].
  apply IH. auto with lines.
Qed.

Lemma tips_loop_ends_line tips text :
  ends_line text -> ends_line (tips_loop tips text).
Proof.
  revert text. induction tips as [|tip rest IH]; intros text H;
    cbn [tips_loop]; [exact H|].
  apply IH. auto with lines.
Qed.

Lemma dining_loop_ends_line dining text :
  ends_line text -> ends_line (dining_loop dining text).
Proof.
  revert text. induction dining as [|item rest IH]; intros text H;
    cbn [dining_loop]; [exact H|].
  destruct item; apply IH; auto using items_loop_ends_line with lines.
Qed.

Lemma attractions_loop_ends_line attractions text out :
  ends_line text ->
  attractions_loop attractions text = Ok out -> ends_line out.
Proof.
  revert text. induction attractions as [|attraction rest IH];
    intros text H E; cbn [attractions_loop] in E.
  - apply Ok_inj in E. now subst.
  - destruct (subscript attraction "name") as [name|]; cbn [bind] in E;
      [|discriminate].
    destruct (subscript attraction "description") as [description|];
      cbn [bind] in E; [|discriminate].
    apply IH in E; [exact E|]. auto with lines.
Qed.

(** Whatever a block appends is made of whole lines. *)
Lemma block_ends_line key block guide_data text out :
  In (key, block) blocks ->
  ends_line text ->
  block guide_data text = Ok out -> ends_line out.
Proof.
  unfold blocks. cbn [In].
  intros [E|[E|[E|[E|[E|[]]]]]] Ht; injection E as <- <-;
    cbv beta delta [overview_block attractions_block transportation_block
                    food_block tips_block];
    (destruct (py_in _ guide_data) as [[|]|]; cbn [bind];
     [|intros H; apply Ok_inj in H; now subst|discriminate]);
    (destruct (subscript guide_data _) as [x|]; cbn [bind];
     [|discriminate]).
  - intros H; apply Ok_inj in H; subst.
    unfold h_overview. auto with lines.
  - destruct x; try (intros H; apply Ok_inj in H; subst;
                     unfold h_attractions; auto with lines).
    apply attractions_loop_ends_line. unfold h_attractions. auto with lines.
  - destruct x; intros H; apply Ok_inj in H; subst;
      unfold h_transportation; auto using items_loop_ends_line with lines.
  - destruct x; intros H; apply Ok_inj in H; subst;
      unfold h_food; auto using dining_loop_ends_line with lines.
  - destruct x; intros H; apply Ok_inj in H; subst;
      unfold h_tips; auto using tips_loop_ends_line with lines.
Qed.

(** A block whose key is not in the mapping appends nothing. *)
Lemma absent_key_appends_nothing key block d :
  In (key, block) blocks ->
  Dict.get d key = None ->
  forall text, block (VDict d) text = Ok text.
Proof.
  unfold blocks. cbn [In].
  intros [E|[E|[E|[E|[E|[]]]]]] Hget text; injection E as <- <-;
    cbv beta delta [overview_block attractions_block transportation_block
                    food_block tips_block];
    cbn [py_in bind]; now rewrite (absent_mem _ _ Hget).
Qed.

(** The lines of a header followed by a plain string. *)
Lemma plain_block_lines heading s line :
  In line (lines ((heading ++ nl ++ nl) ++ para (VStr s))) ->
  In line (lines heading) \/ line = "" \/ In line (lines s).
Proof.
  unfold para. cbn [py_str]. rewrite !append_assoc, lines_app_nl.
  change (nl ++ s ++ nl ++ nl) with ("" ++ nl ++ s ++ nl ++ "" ++ nl ++ "").
  rewrite !lines_app_nl. cbn [lines]. rewrite !in_app_iff. cbn [In].
  intuition auto.
Qed.

(** The lines of the title: the first line of the destination comes after
    the fixed prefix, the others stand alone. *)
Lemma title_lines destination line :
  In line (lines (title destination)) ->
  (exists first, line = "# Travel Guide: " ++ first)
  \/ line = "" \/ In line (lines destination).
Proof.
  unfold title. rewrite <- append_assoc, lines_app_nl, in_app_iff.
  intros [H|H].
  - cbn [append lines Ascii.eqb Bool.eqb] in H.
    pose proof (lines_not_nil destination) as Hne.
    destruct (lines destination) as [|first others]; [now elim Hne|].
    cbn [In] in H. destruct H as [<-|H].
    + left. now exists first.
    + right. right. now right.
  - right. left. cbn in H. intuition auto.
Qed.

(** What a block appends for a key that is absent or bound to a plain
    string. *)
Lemma plain_block key block d out line :
  In (key, block) blocks ->
  plain_without_line d key line ->
  block (VDict d) "" = Ok out ->
  In line (lines out) ->
  line = "" \/ In (key, line) header_lines.
Proof.
  intros Hin [Hget|(s & Hget & Hline)] Hout Hl.
  - rewrite (absent_key_appends_nothing key block d Hin Hget) in Hout.
    apply Ok_inj in Hout. subst out. cbn in Hl. left. intuition auto.
  - unfold blocks in Hin. cbn [In] in Hin.
    destruct Hin as [E|[E|[E|[E|[E|[]]]]]]; injection E as <- <-;
      cbv beta delta [overview_block attractions_block transportation_block
                      food_block tips_block] in Hout;
      cbn [py_in subscript] in Hout;
      rewrite (present_mem _ _ _ Hget), Hget in Hout; cbn [bind] in Hout;
      rewrite ?append_nil_l in Hout; apply Ok_inj in Hout; subst out;
      apply plain_block_lines in Hl;
      (destruct Hl as [Hl|[Hl|Hl]]; [|now left|now elim Hline]);
      right; cbn in Hl; destruct Hl as [<-|[]];
      unfold header_lines; cbn; tauto.
Qed.

End Lines.

Section OmittedKeys.

(** C6, as stated, fails.  With no [tips] key, a value that carries the
    header makes the document carry it: the text "## Practical Tips" is
    in the document, on a line of its own. *)
Lemma practical_tips_header_without_tips_key :
  Dict.get [("overview",
             VStr ("Paris is great." ++ nl ++ nl
                   ++ "## Practical Tips" ++ nl ++ nl ++ "Be safe"))]
           "tips" = None
  /\ format_guide
       (VDict [("overview",
                VStr ("Paris is great." ++ nl ++ nl
                      ++ "## Practical Tips" ++ nl ++ nl ++ "Be safe"))])
       "Paris"
     = Ok ("# Travel Guide: Paris" ++ nl ++ nl
           ++ "## Overview" ++ nl ++ nl
           ++ "Paris is great." ++ nl ++ nl
           ++ "## Practical Tips" ++ nl ++ nl ++ "Be safe" ++ nl ++ nl)
  /\ ~ (forall d destination doc,
           Dict.get d "tips" = None ->
           format_guide (VDict d) destination = Ok doc ->
           contains "## Practical Tips" doc = false)
  /\ ~ (forall d destination doc,
           Dict.get d "tips" = None ->
           format_guide (VDict d) destination = Ok doc ->
           ~ In "## Practical Tips" (lines doc)).
Proof.
  split; [reflexivity|]. split; [reflexivity|]. split; intros H.
  - specialize (H [("overview",
                    VStr ("Paris is great." ++ nl ++ nl
                          ++ "## Practical Tips" ++ nl ++ nl ++ "Be safe"))]
                  "Paris" _ eq_refl eq_refl).
    vm_compute in H. discriminate H.
  - apply (H [("overview",
               VStr ("Paris is great." ++ nl ++ nl
                     ++ "## Practical Tips" ++ nl ++ nl ++ "Be safe"))]
             "Paris" _ eq_refl eq_refl).
    vm_compute. tauto.
Qed.

(** C6, amended.  A key that is not in the mapping makes its block append
    nothing.  With [tips] absent the document is the title followed by
    the blocks of the other four keys, and a line "## Practical Tips" is
    in the document only if it is a line of the title or of one of those
    four blocks.  It is in none of them, and so not in the document, when
    the other keys are absent or bound to plain strings that have no such
    line and the destination has no such line either. *)
Theorem absent_key_renders_no_block d destination doc :
  format_guide (VDict d) destination = Ok doc ->
  (forall key block,
      In (key, block) blocks ->
      Dict.get d key = None ->
      forall text, block (VDict d) text = Ok text)
  /\ (Dict.get d "tips" = None ->
      exists o a t f,
        overview_block (VDict d) "" = Ok o
        /\ attractions_block (VDict d) "" = Ok a
        /\ transportation_block (VDict d) "" = Ok t
        /\ food_block (VDict d) "" = Ok f
        /\ doc = title destination ++ o ++ a ++ t ++ f
        /\ (In "## Practical Tips" (lines doc) ->
            In "## Practical Tips" (lines (title destination))
            \/ In "## Practical Tips" (lines o)
            \/ In "## Practical Tips" (lines a)
            \/ In "## Practical Tips" (lines t)
            \/ In "## Practical Tips" (lines f)))
  /\ (Dict.get d "tips" = None ->
      (forall key,
          In key ["overview"; "attractions"; "transportation";
                  "food_and_dining"] ->
          plain_without_line d key "## Practical Tips") ->
      ~ In "## Practical Tips" (lines destination) ->
      ~ In "## Practical Tips" (lines doc)).
Proof.
  intros Hdoc.
  assert (Hparts :
            Dict.get d "tips" = None ->
            exists o a t f,
              overview_block (VDict d) "" = Ok o
              /\ attractions_block (VDict d) "" = Ok a
              /\ transportation_block (VDict d) "" = Ok t
              /\ food_block (VDict d) "" = Ok f
              /\ doc = title destination ++ o ++ a ++ t ++ f
              /\ (In "## Practical Tips" (lines doc) ->
                  In "## Practical Tips" (lines (title destination))
                  \/ In "## Practical Tips" (lines o)
                  \/ In "## Practical Tips" (lines a)
                  \/ In "## Practical Tips" (lines t)
                  \/ In "## Practical Tips" (lines f))).
  2: { split; [|split; [exact Hparts|]].
       - intros key block Hin Hget.
         now apply absent_key_appends_nothing with key.
       - intros Htips Hplain Hdest Hline.
         destruct (Hparts Htips) as (o & a & t & f & Eo & Ea & Et & Ef & _ & Hfrom).
         assert (Hblock : forall key block out,
                    In (key, block) blocks ->
                    In key ["overview"; "attractions"; "transportation";
                            "food_and_dining"] ->
                    block (VDict d) "" = Ok out ->
                    ~ In "## Practical Tips" (lines out)).
         { intros key block out Hin Hkey Hout Hl.
           destruct (plain_block key block d out _ Hin (Hplain key Hkey) Hout Hl)
             as [E|E]; [discriminate E|].
           unfold header_lines in E. cbn [In] in *.
           intuition (subst; congruence). }
         destruct (Hfrom Hline) as [H|[H|[H|[H|H]]]].
         + apply title_lines in H. destruct H as [[first E]|[E|H]];
             [discriminate E|discriminate E|now apply Hdest].
         + revert H. apply (Hblock "overview" overview_block);
             [unfold blocks|..]; cbn; tauto.
         + revert H. apply (Hblock "attractions" attractions_block);
             [unfold blocks|..]; cbn; tauto.
         + revert H. apply (Hblock "transportation" transportation_block);
             [unfold blocks|..]; cbn; tauto.
         + revert H. apply (Hblock "food_and_dining" food_block);
             [unfold blocks|..]; cbn; tauto. }
  - intros Htips. rewrite format_guide_blocks in Hdoc.
    destruct (overview_block (VDict d) "") as [o|] eqn:Eo; cbn [bind] in Hdoc;
      [|discriminate].
    destruct (attractions_block (VDict d) "") as [a|] eqn:Ea;
      cbn [bind] in Hdoc; [|discriminate].
    destruct (transportation_block (VDict d) "") as [t|] eqn:Et;
      cbn [bind] in Hdoc; [|discriminate].
    destruct (food_block (VDict d) "") as [f|] eqn:Ef; cbn [bind] in Hdoc;
      [|discriminate].
    rewrite (absent_key_appends_nothing "tips" tips_block d) in Hdoc;
      [|unfold blocks; cbn; tauto|exact Htips].
    cbn [bind] in Hdoc. apply Ok_inj in Hdoc. rewrite append_nil_r in Hdoc.
    subst doc. exists o, a, t, f. repeat split.
    assert (Hwhole : forall key block out,
               In (key, block) blocks ->
               block (VDict d) "" = Ok out -> ends_line out).
    { intros key block out Hin. apply block_ends_line with key; [exact Hin|].
      now left. }
    intros Hin.
    apply line_of_app in Hin; [|apply title_ends_line].
    destruct Hin as [Hin|Hin]; [now left|right].
    apply line_of_app in Hin;
      [|apply (Hwhole "overview" overview_block); [unfold blocks; cbn; tauto|exact Eo]].
    destruct Hin as [Hin|Hin]; [now left|right].
    apply line_of_app in Hin;
      [|apply (Hwhole "attractions" attractions_block);
        [unfold blocks; cbn; tauto|exact Ea]].
    destruct Hin as [Hin|Hin]; [now left|right].
    apply line_of_app in Hin;
      [|apply (Hwhole "transportation" transportation_block);
        [unfold blocks; cbn; tauto|exact Et]].
    tauto.
Qed.

Lemma absent_key_renders_no_block_witness :
  tips_block
    (VDict [("overview", VStr "X is great.");
            ("attractions", VStr "1. Tower");
            ("transportation", VStr "Metro");
            ("food_and_dining", VStr "Cafes")])
    "# Travel Guide: X"
  = Ok "# Travel Guide: X"
  /\ ~ In "## Practical Tips"
         (lines ("# Travel Guide: X" ++ nl ++ nl
                 ++ "## Overview" ++ nl ++ nl ++ "X is great." ++ nl ++ nl
                 ++ "## Must-See Attractions" ++ nl ++ nl ++ "1. Tower"
                 ++ nl ++ nl
                 ++ "## Getting Around" ++ nl ++ nl ++ "Metro" ++ nl ++ nl
                 ++ "## Food & Dining" ++ nl ++ nl ++ "Cafes" ++ nl ++ nl)).
Proof.
  pose proof (absent_key_renders_no_block
                [("overview", VStr "X is great.");
                 ("attractions", VStr "1. Tower");
                 ("transportation", VStr "Metro");
                 ("food_and_dining", VStr "Cafes")]
                "X" _ eq_refl) as (Hnothing & _ & Hclean).
  split.
  - apply (Hnothing "tips" tips_block); [cbn; tauto | reflexivity].
  - apply Hclean; [reflexivity | | cbn; intuition discriminate].
    intros key Hkey. right. cbn in Hkey.
    destruct Hkey as [<-|[<-|[<-|[<-|[]]]]];
      eexists; (split; [reflexivity|]); cbn; intuition discriminate.
Defined.

End OmittedKeys.

Section ModelResponseFailure.

Variable http_get : string -> result (list node).
Variable chat_create : list (string * string) -> result (option string).
Variable json_loads : string -> result value.

(** A successful scrape only counts the request. *)
Lemma scrape_some destination w content w' :
  scrape_destination_info http_get destination w = (Some content, w') ->
  w' = count_fetch w.
Proof.
  unfold scrape_destination_info.
  destruct (http_get _) as [top|e]; [|discriminate].
  destruct (find_with_attr _ _ _ _) as [c|]; [|discriminate].
  destruct (extract c); [|discriminate].
  intros H. now injection H.
Qed.

(** C7. When the completion is not JSON, or decodes to an object that
    lacks one of the five required keys, [generate_guide] prints a
    diagnostic and returns no guide; the model has been asked once; and
    [create_travel_guide] stops there, printing "Failed to generate
    guide" and displaying nothing. *)
Theorem bad_completion_yields_no_guide destination content user_prompt text :
  get_user_prompt destination content = Ok user_prompt ->
  chat_create [("system", get_system_prompt); ("user", user_prompt)]
  = Ok (Some text) ->
  (exists msg, json_loads text = Raise (JSONDecodeError msg))
  \/ (exists d key, json_loads text = Ok (VDict d)
                    /\ In key required_keys /\ Dict.get d key = None) ->
  exists diagnostic,
    ((exists msg,
         diagnostic = [ErrorLine "JSON parsing error: " (JSONDecodeError msg);
                       Line "Problematic content:"; Line text])
     \/ (exists missing,
            missing <> [] /\
            diagnostic = [Line ("Missing required keys: "
                                ++ py_repr (VList (map VStr missing)))]))
    /\ (forall w,
           generate_guide chat_create json_loads destination content w
           = (None,
              World (stdout w ++ diagnostic) (fetches w)
                    (S (completions w)) (displayed w)))
    /\ (forall w w',
           scrape_destination_info http_get destination
             (print (Line ("Scraping information for " ++ destination
                           ++ "...")) w)
           = (Some content, w') ->
           create_travel_guide http_get chat_create json_loads destination w
           = (None,
              World (stdout w
                       ++ [Line ("Scraping information for " ++ destination
                                 ++ "...");
                           Line "Generating guide..."]
                       ++ diagnostic
                       ++ [Line "Failed to generate guide"])
                    (S (fetches w)) (S (completions w)) (displayed w))).
Proof.
  intros Hp Hc Hbad.
  assert (Hgen : exists diagnostic,
             ((exists msg,
                  diagnostic
                  = [ErrorLine "JSON parsing error: " (JSONDecodeError msg);
                     Line "Problematic content:"; Line text])
              \/ (exists missing,
                     missing <> [] /\
                     diagnostic
                     = [Line ("Missing required keys: "
                              ++ py_repr (VList (map VStr missing)))]))
             /\ forall w,
                 generate_guide chat_create json_loads destination content w
                 = (None,
                    World (stdout w ++ diagnostic) (fetches w)
                          (S (completions w)) (displayed w))).
  { destruct Hbad as [[msg Hj]|(d & key & Hj & Hin & Hget)].
    - eexists. split; [left; now exists msg|].
      intros w. now apply generate_guide_not_json with user_prompt.
    - exists [Line ("Missing required keys: "
                    ++ py_repr
                         (VList
                            (map VStr
                                 (filter (fun key => negb (Dict.mem key d))
                                         required_keys))))].
      split.
      + right. exists (filter (fun key => negb (Dict.mem key d)) required_keys).
        split; [exact (missing_key_is_listed d key _ Hin Hget)|reflexivity].
      + intros w.
        now apply generate_guide_missing_key with user_prompt text key. }
  destruct Hgen as (diagnostic & Hshape & Hgen).
  exists diagnostic. split; [exact Hshape|]. split; [exact Hgen|].
  intros w w' Hscrape. unfold create_travel_guide. rewrite Hscrape.
  apply scrape_some in Hscrape. subst w'.
  destruct content as [|entry content'].
  { cbn in Hp. discriminate Hp. }
  rewrite Hgen. unfold print, count_fetch.
  cbn [stdout fetches completions displayed].
  now rewrite <- !app_assoc.
Qed.

End ModelResponseFailure.

Lemma bad_completion_yields_no_guide_witness :
  exists diagnostic,
    ((exists msg,
         diagnostic = [ErrorLine "JSON parsing error: " (JSONDecodeError msg);
                       Line "Problematic content:"; Line Stub.refusal])
     \/ (exists missing,
            missing <> [] /\
            diagnostic = [Line ("Missing required keys: "
                                ++ py_repr (VList (map VStr missing)))]))
    /\ (forall w,
           generate_guide Stub.chat_refuses Stub.json_loads "X" Stub.scraped w
           = (None,
              World (stdout w ++ diagnostic) (fetches w)
                    (S (completions w)) (displayed w)))
    /\ (forall w w',
           scrape_destination_info Stub.http_get "X"
             (print (Line ("Scraping information for " ++ "X" ++ "...")) w)
           = (Some Stub.scraped, w') ->
           create_travel_guide Stub.http_get Stub.chat_refuses Stub.json_loads
                               "X" w
           = (None,
              World (stdout w
                       ++ [Line ("Scraping information for " ++ "X" ++ "...");
                           Line "Generating guide..."]
                       ++ diagnostic
                       ++ [Line "Failed to generate guide"])
                    (S (fetches w)) (S (completions w)) (displayed w))).
Proof.
  exact (bad_completion_yields_no_guide
           Stub.http_get Stub.chat_refuses Stub.json_loads
           "X" Stub.scraped _ Stub.refusal
           eq_refl eq_refl
           (or_introl (ex_intro _ "Expecting value: line 1 column 1 (char 0)"
                                eq_refl))).
Defined.

(** The two failures and the end-to-end scenario, run on the stubs. *)
Lemma pipeline_on_refusal :
  create_travel_guide Stub.http_get Stub.chat_refuses Stub.json_loads
                      "X" (World [] 0 0 [])
  = (None,
     World [Line "Scraping information for X...";
            Line "Generating guide...";
            ErrorLine "JSON parsing error: "
                      (JSONDecodeError "Expecting value: line 1 column 1 (char 0)");
            Line "Problematic content:";
            Line Stub.refusal;
            Line "Failed to generate guide"]
           1 1 []).
Proof. reflexivity. Qed.

Lemma pipeline_without_tips :
  create_travel_guide Stub.http_get Stub.chat_omits_tips Stub.json_loads
                      "X" (World [] 0 0 [])
  = (None,
     World [Line "Scraping information for X...";
            Line "Generating guide...";
            Line "Missing required keys: ['tips']";
            Line "Failed to generate guide"]
           1 1 []).
Proof. reflexivity. Qed.

Lemma pipeline_end_to_end :
  create_travel_guide Stub.http_get Stub.chat_answers Stub.json_loads
                      "X" (World [] 0 0 [])
  = (None,
     World [Line "Scraping information for X..."; Line "Generating guide..."]
           1 1
           ["# Travel Guide: X" ++ nl ++ nl
            ++ "## Overview" ++ nl ++ nl ++ "X is great." ++ nl ++ nl
            ++ "## Must-See Attractions" ++ nl ++ nl ++ "1. Tower" ++ nl ++ nl
            ++ "## Getting Around" ++ nl ++ nl ++ "Metro" ++ nl ++ nl
            ++ "## Food & Dining" ++ nl ++ nl ++ "Cafes" ++ nl ++ nl
            ++ "## Practical Tips" ++ nl ++ nl ++ "Be safe" ++ nl ++ nl]).
Proof. reflexivity. Qed.

(* ================================================================== *)
(** * Further properties of the extractor *)
(* ================================================================== *)

Section WholeScan.

(** X1. The text gathered for a heading is made of the paragraphs among
    the tags that follow the heading as siblings, up to the next [<h2>] or
    [<h3>] sibling: each stripped, joined by single spaces; strings and
    tags that are not paragraphs are passed over. *)
Theorem section_text_is_the_paragraphs_up_to_the_next_heading heading :
  section_text heading
  = join " "
      (map paragraph_text
           (filter is_p
                   (take_while (fun e => negb (is_section_heading e))
                               (tag_siblings (next_siblings heading))))).
Proof.
  unfold section_text, find_next_sibling.
  now rewrite section_loop_spec, walk_from_first_tag.
Qed.

Lemma pointer_ok_update heading_text current_section :
  pointer_ok current_section ->
  pointer_ok (update_section heading_text current_section).
Proof.
  intros Hp.
  destruct (update_section_cases heading_text current_section)
    as [->|(key & Hin & Hall)]; [exact Hp|].
  now rewrite Hall.
Qed.

(** The scan appends, under every key, what [gathered] says. *)
Lemma headings_loop_gathers headings :
  forall current_section info,
    pointer_ok current_section ->
    Dict.keys info = five_keys ->
    exists st',
      headings_loop headings (current_section, info) = Ok st'
      /\ Dict.keys (snd st') = five_keys
      /\ forall key old,
           Dict.get info key = Some old ->
           Dict.get (snd st') key
           = Some (old ++ gathered key headings current_section).
Proof.
  induction headings as [|heading rest IH]; intros cs info Hp Hk.
  - exists (cs, info). cbn [headings_loop snd gathered].
    repeat split; [exact Hk|]. intros key old ->. now rewrite append_nil_r.
  - pose proof (pointer_ok_update (lower (get_text heading)) cs Hp) as Hp1.
    cbn [headings_loop gathered].
    destruct (update_section (lower (get_text heading)) cs) as [k|] eqn:Hup.
    + cbn [pointer_ok] in Hp1.
      destruct (get_of_key _ info k) as [oldk Hgetk].
      { rewrite Hk. now apply section_key_in_five. }
      rewrite (heading_step_some _ _ _ _ _ Hup Hp1 Hgetk). cbn [bind].
      destruct (IH (Some k) (Dict.set info k (oldk ++ section_text heading)))
        as (st' & E & Hk' & Hall); [exact Hp1| |].
      { now rewrite (keys_set _ _ _ _ _ Hgetk). }
      exists st'. repeat split; [exact E|exact Hk'|].
      intros key old Hget.
      destruct (String.eqb k key) eqn:Ekey.
      * apply String.eqb_eq in Ekey. subst key.
        rewrite Hget in Hgetk. injection Hgetk as <-.
        rewrite (Hall k (old ++ section_text heading)) by apply get_set_same.
        now rewrite append_assoc.
      * apply String.eqb_neq in Ekey.
        rewrite (Hall key old); [reflexivity|].
        now rewrite get_set_other.
    + rewrite (heading_step_none _ _ _ Hup). cbn [bind].
      destruct (IH None info I Hk) as (st' & E & Hk' & Hall).
      exists st'. repeat split; [exact E|exact Hk'|].
      intros key old Hget. now rewrite (Hall key old Hget).
Qed.

(** A mapping with the five keys is the list of its five bindings. *)
Lemma five_bindings (info : list (string * string)) o a t f p :
  Dict.keys info = five_keys ->
  Dict.get info "overview" = Some o ->
  Dict.get info "attractions" = Some a ->
  Dict.get info "transportation" = Some t ->
  Dict.get info "food" = Some f ->
  Dict.get info "tips" = Some p ->
  info = [("overview", o); ("attractions", a); ("transportation", t);
          ("food", f); ("tips", p)].
Proof.
  unfold five_keys, Dict.keys.
  destruct info as [|[k1 v1] [|[k2 v2] [|[k3 v3] [|[k4 v4] [|[k5 v5] [|]]]]]];
    try discriminate.
  cbn [map fst]. intros E. injection E as -> -> -> -> ->.
  cbn. intros Ho Ha Ht Hf Hp.
  injection Ho as ->. injection Ha as ->. injection Ht as ->.
  injection Hf as ->. injection Hp as ->. reflexivity.
Qed.

(** X2. What the extraction returns, in closed form: the overview is the
    first run of paragraphs, and each of the four sections holds the texts
    of the headings processed while it was the current section, in document
    order and with nothing between them. *)
Theorem extract_closed_form content :
  extract content
  = Ok [("overview",
         join " " (map paragraph_text (first_paragraph_run content)));
        ("attractions", gathered "attractions" (headings_of content) None);
        ("transportation",
         gathered "transportation" (headings_of content) None);
        ("food", gathered "food" (headings_of content) None);
        ("tips", gathered "tips" (headings_of content) None)].
Proof.
  destruct (extract_returns content) as (info & E & Hk & Ho).
  rewrite E. f_equal.
  assert (Hsec : forall key,
             In key section_keys ->
             Dict.get info key
             = Some (gathered key (headings_of content) None)).
  { intros key Hin. unfold extract in E.
    destruct (headings_loop_gathers (headings_of content) None
                (Dict.set empty_info "overview" (overview_of content))
                I eq_refl) as (st' & E' & _ & Hall).
    unfold headings_of in *. rewrite E' in E. cbn [bind] in E.
    apply Ok_inj in E. subst info.
    rewrite (Hall key "").
    - reflexivity.
    - rewrite get_set_other by (apply not_eq_sym; now apply section_key_not_overview).
      unfold section_keys in Hin. cbn [In] in Hin.
      destruct Hin as [<-|[<-|[<-|[<-|[]]]]]; reflexivity. }
  apply five_bindings; try exact Hk.
  - rewrite Ho. unfold overview_of, first_paragraph_run.
    now rewrite intro_loop_spec.
  - apply Hsec. unfold section_keys. cbn. tauto.
  - apply Hsec. unfold section_keys. cbn. tauto.
  - apply Hsec. unfold section_keys. cbn. tauto.
  - apply Hsec. unfold section_keys. cbn. tauto.
Qed.

(** X3. Headings that match no keyword and come before the first match
    contribute nothing: the scan goes on from them as if they were not
    there. *)
Theorem headings_before_the_first_match_are_dropped skipped rest info :
  forallb (fun heading => unrecognized (lower (get_text heading))) skipped
  = true ->
  headings_loop (skipped ++ rest) (None, info)
  = headings_loop rest (None, info).
Proof.
  induction skipped as [|heading skipped IH]; intros Hun; [reflexivity|].
  cbn [forallb] in Hun. apply andb_true_iff in Hun. destruct Hun as [Hh Hs].
  cbn [app headings_loop].
  rewrite heading_step_none by now apply update_section_unrecognized.
  cbn [bind]. now apply IH.
Qed.

Lemma headings_before_the_first_match_are_dropped_witness :
  headings_loop
    ([Element "h2" [] [Text "History"] [Pages.p "Founded long ago."];
      Element "h3" [] [Text "Climate"] [Pages.p "Mild."]]
       ++ [Element "h2" [] [Text "Eat"] [Pages.p "Try the bread."]])
    (None, empty_info)
  = headings_loop [Element "h2" [] [Text "Eat"] [Pages.p "Try the bread."]]
                  (None, empty_info).
Proof.
  exact (headings_before_the_first_match_are_dropped
           [Element "h2" [] [Text "History"] [Pages.p "Founded long ago."];
            Element "h3" [] [Text "Climate"] [Pages.p "Mild."]]
           [Element "h2" [] [Text "Eat"] [Pages.p "Try the bread."]]
           empty_info eq_refl).
Defined.

(** The first tag among the children of a tag is the first tag below it. *)
Lemma find_first_child nm at' cs keep e :
  first_tag cs = Some e ->
  keep e = true ->
  List.find keep (tags_below (Tag nm at' cs)) = Some e.
Proof.
  cbn [tags_below]. intros Hfirst Hkeep.
  induction cs as [|[text|text|nm' a' cs'] rest IH]; cbn [first_tag] in Hfirst.
  - discriminate.
  - cbn [tags_below app]. now apply IH.
  - cbn [tags_below app]. now apply IH.
  - injection Hfirst as <-. cbn [app List.find]. now rewrite Hkeep.
Qed.

(** X4. When the first tag among the children of the content container is
    a paragraph, the overview is the run of paragraphs at the start of the
    container: the children that are paragraphs, up to the first child tag
    that is not one, each stripped, joined by single spaces. *)
Theorem overview_of_a_page_that_starts_with_paragraphs content first :
  first_tag (contents content) = Some first ->
  name first = "p" ->
  overview_of content
  = join " "
      (map paragraph_text
           (take_while is_p (tag_siblings (contents content)))).
Proof.
  intros Hfirst Hname. unfold overview_of, find, descendants.
  rewrite (find_first_child _ _ _ _ first Hfirst)
    by (rewrite Hname; reflexivity).
  rewrite intro_loop_spec. cbn [app]. rewrite <- Hfirst.
  now rewrite walk_from_first_tag.
Qed.

Lemma overview_of_a_page_that_starts_with_paragraphs_witness :
  overview_of
    (Pages.container [Text " "; Pages.p " A city. "; Comment "map";
                      Pages.p "On a river."; Pages.h2 "See";
                      Pages.p "Museums."])
  = "A city. On a river.".
Proof.
  exact (overview_of_a_page_that_starts_with_paragraphs
           (Pages.container [Text " "; Pages.p " A city. "; Comment "map";
                             Pages.p "On a river."; Pages.h2 "See";
                             Pages.p "Museums."])
           (Element "p" [] [Text " A city. "]
                    [Comment "map"; Pages.p "On a river."; Pages.h2 "See";
                     Pages.p "Museums."])
           eq_refl eq_refl).
Defined.

End WholeScan.

(* ================================================================== *)
(** * Further properties of the renderer *)
(* ================================================================== *)

Section RendererEdges.

(** The loop over [attractions] raises at the first element that lacks a
    [name] or a [description], with the exception of that subscript. *)
Lemma attractions_loop_raise attractions text e :
  attractions_loop attractions text = Raise e ->
  exists good bad rest,
    attractions = (good ++ bad :: rest)%list
    /\ Forall has_name_and_description good
    /\ (subscript bad "name" = Raise e
        \/ exists name, subscript bad "name" = Ok name
                        /\ subscript bad "description" = Raise e).
Proof.
  revert text. induction attractions as [|attraction rest IH]; intros text H;
    cbn [attractions_loop] in H; [discriminate|].
  destruct (subscript attraction "name") as [name|e1] eqn:Hn; cbn [bind] in H.
  - destruct (subscript attraction "description") as [description|e2] eqn:Hd;
      cbn [bind] in H.
    + destruct (IH _ H) as (good & bad & rest' & -> & Hgood & Hbad).
      exists (attraction :: good), bad, rest'. repeat split; [|exact Hbad].
      constructor; [now exists name, description | exact Hgood].
    + injection H as <-. exists [], attraction, rest.
      repeat split; [constructor|]. right. now exists name.
  - injection H as <-. exists [], attraction, rest.
    repeat split; [constructor|]. now left.
Qed.

(** The exception of a [str] subscript. *)
Lemma subscript_raise v key e :
  subscript v key = Raise e -> e = TypeError \/ e = KeyError key.
Proof.
  destruct v; cbn [subscript]; try (intros H; injection H as <-; now left).
  destruct (Dict.get entries key); [discriminate|].
  intros H. injection H as <-. now right.
Qed.

(** X5. On a mapping, [format_guide] raises only from the loop over a list
    stored under [attractions]: the exception is the one of the subscript
    [attraction['name']] or [attraction['description']] at the first element
    that lacks one of them, so it is a [TypeError] or a [KeyError] for
    [name] or [description]. *)
Theorem format_guide_raises_only_in_attractions d destination e :
  format_guide (VDict d) destination = Raise e ->
  (exists items good bad rest,
      Dict.get d "attractions" = Some (VList items)
      /\ items = (good ++ bad :: rest)%list
      /\ Forall has_name_and_description good
      /\ (subscript bad "name" = Raise e
          \/ exists name, subscript bad "name" = Ok name
                          /\ subscript bad "description" = Raise e))
  /\ (e = TypeError \/ e = KeyError "name" \/ e = KeyError "description").
Proof.
  intros H. rewrite format_guide_blocks in H.
  destruct (overview_block_returns d "") as [o Eo].
  destruct (transportation_block_returns d "") as [t Et].
  destruct (food_block_returns d "") as [f Ef].
  destruct (tips_block_returns d "") as [p Ep].
  rewrite Eo in H. cbn [bind] in H.
  destruct (attractions_block (VDict d) "") as [a|e'] eqn:Ea; cbn [bind] in H.
  { rewrite Et, Ef, Ep in H. discriminate H. }
  injection H as ->.
  unfold attractions_block in Ea. cbn [py_in bind] in Ea.
  destruct (Dict.mem "attractions" d) eqn:Hmem; [|discriminate Ea].
  destruct (present_subscript _ _ Hmem) as (x & Hget & Hsub).
  rewrite Hsub in Ea. cbn [bind] in Ea.
  destruct x as [| | | | |items|]; try discriminate Ea.
  destruct (attractions_loop_raise _ _ _ Ea) as (good & bad & rest & -> & Hg & Hb).
  split.
  - now exists (good ++ bad :: rest)%list, good, bad, rest.
  - destruct Hb as [Hb|(name & _ & Hb)]; apply subscript_raise in Hb; tauto.
Qed.

Lemma format_guide_raises_only_in_attractions_witness :
  (exists items good bad rest,
      Dict.get [("overview", VStr "X is great.");
                ("attractions",
                 VList [VDict [("name", VStr "Tower");
                               ("description", VStr "Tall")];
                        VDict [("name", VStr "Bridge")]])]
               "attractions" = Some (VList items)
      /\ items = (good ++ bad :: rest)%list
      /\ Forall has_name_and_description good
      /\ (subscript bad "name" = Raise (KeyError "description")
          \/ exists name, subscript bad "name" = Ok name
                          /\ subscript bad "description"
                             = Raise (KeyError "description")))
  /\ (KeyError "description" = TypeError
      \/ KeyError "description" = KeyError "name"
      \/ KeyError "description" = KeyError "description").
Proof.
  exact (format_guide_raises_only_in_attractions
           [("overview", VStr "X is great.");
            ("attractions",
             VList [VDict [("name", VStr "Tower"); ("description", VStr "Tall")];
                    VDict [("name", VStr "Bridge")]])]
           "X" (KeyError "description") eq_refl).
Defined.

(** X6. [format_guide] reads the five guide keys and nothing else: two
    mappings that agree on them give the same document, or the same
    exception. *)
Theorem format_guide_reads_the_five_keys_only d d' destination :
  (forall key, In key required_keys -> Dict.get d key = Dict.get d' key) ->
  format_guide (VDict d) destination = format_guide (VDict d') destination.
Proof.
  intros Hsame.
  assert (Ho := Hsame "overview"). assert (Ha := Hsame "attractions").
  assert (Ht := Hsame "transportation").
  assert (Hf := Hsame "food_and_dining"). assert (Hp := Hsame "tips").
  unfold required_keys in *. cbn [In] in *.
  unfold format_guide, overview_block, attractions_block,
    transportation_block, food_block, tips_block.
  cbn [py_in subscript]. unfold Dict.mem.
  rewrite Ho, Ha, Ht, Hf, Hp by tauto. reflexivity.
Qed.

Lemma format_guide_reads_the_five_keys_only_witness :
  format_guide
    (VDict [("sources", VList [VStr "wikitravel"]); ("overview", VStr "X is great.");
            ("tips", VStr "Be safe"); ("confidence", VFloat "0.9")])
    "X"
  = format_guide
      (VDict [("overview", VStr "X is great."); ("tips", VStr "Be safe")])
      "X".
Proof.
  apply format_guide_reads_the_five_keys_only.
  intros key Hin. unfold required_keys in Hin. cbn [In] in Hin.
  destruct Hin as [<-|[<-|[<-|[<-|[<-|[]]]]]]; reflexivity.
Defined.

(** X7. Whatever the guide is, a document that [format_guide] returns
    starts with the title line and the empty line after it, and ends with
    a line feed. *)
Theorem document_starts_with_the_title guide_data destination doc :
  format_guide guide_data destination = Ok doc ->
  (exists body,
      doc = "# Travel Guide: " ++ destination ++ nl ++ nl ++ body)
  /\ (exists body, doc = body ++ nl).
Proof.
  intros H.
  assert (Hend : ends_line doc).
  { unfold format_guide in H.
    destruct (overview_block guide_data (title destination)) as [t1|] eqn:E1;
      cbn [bind] in H; [|discriminate].
    destruct (attractions_block guide_data t1) as [t2|] eqn:E2;
      cbn [bind] in H; [|discriminate].
    destruct (transportation_block guide_data t2) as [t3|] eqn:E3;
      cbn [bind] in H; [|discriminate].
    destruct (food_block guide_data t3) as [t4|] eqn:E4;
      cbn [bind] in H; [|discriminate].
    destruct (tips_block guide_data t4) as [t5|] eqn:E5;
      cbn [bind] in H; [|discriminate].
    apply Ok_inj in H. subst t5.
    apply (block_ends_line "tips" tips_block guide_data t4 doc);
      [unfold blocks; cbn; tauto| |exact E5].
    apply (block_ends_line "food_and_dining" food_block guide_data t3 t4);
      [unfold blocks; cbn; tauto| |exact E4].
    apply (block_ends_line "transportation" transportation_block
                           guide_data t2 t3);
      [unfold blocks; cbn; tauto| |exact E3].
    apply (block_ends_line "attractions" attractions_block guide_data t1 t2);
      [unfold blocks; cbn; tauto| |exact E2].
    apply (block_ends_line "overview" overview_block
                           guide_data (title destination) t1);
      [unfold blocks; cbn; tauto| |exact E1].
    apply title_ends_line. }
  rewrite format_guide_blocks in H.
  destruct (overview_block guide_data "") as [o|]; cbn [bind] in H;
    [|discriminate].
  destruct (attractions_block guide_data "") as [a|]; cbn [bind] in H;
    [|discriminate].
  destruct (transportation_block guide_data "") as [t|]; cbn [bind] in H;
    [|discriminate].
  destruct (food_block guide_data "") as [f|]; cbn [bind] in H; [|discriminate].
  destruct (tips_block guide_data "") as [p|]; cbn [bind] in H; [|discriminate].
  apply Ok_inj in H. subst doc. split.
  - exists (o ++ a ++ t ++ f ++ p). unfold title. now rewrite !append_assoc.
  - destruct Hend as [E|Hbody]; [|exact Hbody].
    unfold title in E. destruct destination; discriminate E.
Qed.

Lemma document_starts_with_the_title_witness :
  (exists body,
      "# Travel Guide: X" ++ nl ++ nl ++ "## Practical Tips" ++ nl ++ nl
        ++ "- Be safe" ++ nl ++ "- 3" ++ nl
      = "# Travel Guide: " ++ "X" ++ nl ++ nl ++ body)
  /\ (exists body,
         "# Travel Guide: X" ++ nl ++ nl ++ "## Practical Tips" ++ nl ++ nl
           ++ "- Be safe" ++ nl ++ "- 3" ++ nl
         = body ++ nl).
Proof.
  exact (document_starts_with_the_title
           (VDict [("tips", VList [VStr "Be safe"; VInt 3])]) "X" _ eq_refl).
Defined.

End RendererEdges.

(* ================================================================== *)
(** * Further properties of the pipeline *)
(* ================================================================== *)

Section PromptFacts.

Lemma info_at_returns info key :
  returns (info_at info key) <-> Dict.mem key info = true.
Proof.
  unfold info_at, Dict.mem, returns.
  destruct (Dict.get info key) as [text|].
  - split; [reflexivity | intros _; now exists text].
  - split; [intros [a H]; discriminate | discriminate].
Qed.

(** X8. [get_user_prompt] returns exactly when [info] has the five keys
    [overview], [attractions], [transportation], [food] and [tips]; when it
    raises, the exception is the [KeyError] of one of these keys, missing
    from [info]. *)
Theorem get_user_prompt_needs_the_five_keys destination info :
  (returns (get_user_prompt destination info)
   <-> forallb (fun key => Dict.mem key info) five_keys = true)
  /\ (forall e,
         get_user_prompt destination info = Raise e ->
         exists key, e = KeyError key /\ In key five_keys
                     /\ Dict.get info key = None).
Proof.
  unfold get_user_prompt, five_keys, returns. cbn [forallb].
  unfold info_at, Dict.mem.
  destruct (Dict.get info "overview") eqn:Eo; cbn [bind andb];
    [|split; [split; [intros [a H]; discriminate|discriminate]
             |intros e H; injection H as <-; exists "overview"; cbn; tauto]].
  destruct (Dict.get info "attractions") eqn:Ea; cbn [bind andb];
    [|split; [split; [intros [a H]; discriminate|discriminate]
             |intros e H; injection H as <-; exists "attractions"; cbn; tauto]].
  destruct (Dict.get info "transportation") eqn:Et; cbn [bind andb];
    [|split; [split; [intros [a H]; discriminate|discriminate]
             |intros e H; injection H as <-; exists "transportation"; cbn;
              tauto]].
  destruct (Dict.get info "food") eqn:Ef; cbn [bind andb];
    [|split; [split; [intros [a H]; discriminate|discriminate]
             |intros e H; injection H as <-; exists "food"; cbn; tauto]].
  destruct (Dict.get info "tips") eqn:Ep; cbn [bind andb];
    [|split; [split; [intros [a H]; discriminate|discriminate]
             |intros e H; injection H as <-; exists "tips"; cbn; tauto]].
  split; [split; [reflexivity | intros _; now eexists] | discriminate].
Qed.

(** The first key of a passed check is there. *)
Lemma missing_from_nil_head v key rest :
  missing_from v (key :: rest) = Ok [] -> py_in key v = Ok true.
Proof.
  cbn [missing_from].
  destruct (py_in key v) as [[|]|]; cbn [bind]; [reflexivity| |discriminate].
  destruct (missing_from v rest); cbn [bind]; discriminate.
Qed.

Lemma accepted_has_overview v :
  missing_from v required_keys = Ok [] -> py_in "overview" v = Ok true.
Proof. apply missing_from_nil_head. Qed.

(** What passes the key check is not empty. *)
Lemma accepted_is_truthy v :
  missing_from v required_keys = Ok [] -> value_truthy v = true.
Proof.
  intros H. apply accepted_has_overview in H.
  destruct v; cbn [py_in] in H; try discriminate H; cbn [value_truthy].
  - destruct s; [discriminate H | reflexivity].
  - destruct items; [discriminate H | reflexivity].
  - destruct entries; [discriminate H | reflexivity].
Qed.

(** X9. A decoded value that is not an object can pass the key check (a
    string or an array that holds the five key names does), and then
    [format_guide] raises [TypeError] at [guide_data['overview']]. *)
Theorem format_guide_raises_on_an_accepted_non_mapping v destination :
  (forall d, v <> VDict d) ->
  missing_from v required_keys = Ok [] ->
  format_guide v destination = Raise TypeError.
Proof.
  intros Hnot Hacc. apply accepted_has_overview in Hacc.
  unfold format_guide, overview_block. rewrite Hacc. cbn [bind].
  destruct v; try reflexivity. now elim (Hnot entries).
Qed.

Lemma format_guide_raises_on_an_accepted_non_mapping_witness :
  format_guide
    (VList [VStr "overview"; VStr "attractions"; VStr "transportation";
            VStr "food_and_dining"; VStr "tips"])
    "X"
  = Raise TypeError.
Proof.
  apply format_guide_raises_on_an_accepted_non_mapping;
    [discriminate | reflexivity].
Defined.

End PromptFacts.

Section PipelineFacts.

Variable http_get : string -> result (list node).
Variable chat_create : list (string * string) -> result (option string).
Variable json_loads : string -> result value.

(** X10. [scrape_destination_info] asks for the page once and touches
    nothing else.  It returns nothing exactly when the fetch raises or the
    page has no content container; it prints a line only when the fetch
    raises; the extraction itself never fails. *)
Theorem scrape_fails_only_on_fetch_or_container destination w :
  exists found w',
    scrape_destination_info http_get destination w = (found, w')
    /\ fetches w' = S (fetches w)
    /\ completions w' = completions w
    /\ displayed w' = displayed w
    /\ (found = None
        <-> (exists e, http_get (url_of destination) = Raise e)
            \/ (exists top,
                   http_get (url_of destination) = Ok top
                   /\ find_with_attr (document top) "div" "id"
                                     "mw-content-text" = None))
    /\ (forall e,
           http_get (url_of destination) = Raise e ->
           stdout w' = (stdout w ++ [ErrorLine "Error scraping data: " e])%list)
    /\ (forall top,
           http_get (url_of destination) = Ok top -> stdout w' = stdout w).
Proof.
  unfold scrape_destination_info, url_of.
  destruct (http_get _) as [top|e] eqn:Hget.
  - destruct (find_with_attr _ _ _ _) as [content|] eqn:Hfind.
    + destruct (extract_returns content) as (info & E & _).
      rewrite E. exists (Some info), (count_fetch w).
      repeat split; try discriminate.
      intros [[e H]|(top' & H & Hnone)]; [discriminate H|].
      injection H as <-. rewrite Hfind in Hnone. discriminate Hnone.
    + exists None, (count_fetch w). repeat split; try discriminate.
      intros _. right. now exists top.
  - exists None, (print (ErrorLine "Error scraping data: " e) (count_fetch w)).
    repeat split; try discriminate.
    + intros _. left. now exists e.
    + intros e' H. now injection H as <-.
Qed.

Lemma scrape_some_extract destination w info w' :
  scrape_destination_info http_get destination w = (Some info, w') ->
  Dict.keys info = five_keys /\ w' = count_fetch w.
Proof.
  unfold scrape_destination_info.
  destruct (http_get _) as [top|e]; [|discriminate].
  destruct (find_with_attr _ _ _ _) as [content|]; [|discriminate].
  destruct (extract_returns content) as (info' & E & Hk & _). rewrite E.
  intros H. injection H as <- <-. now split.
Qed.

Lemma five_keys_prompt destination info :
  Dict.keys info = five_keys -> returns (get_user_prompt destination info).
Proof.
  intros Hk. unfold get_user_prompt, info_at.
  destruct (get_of_key _ info "overview") as [o ->];
    [rewrite Hk; cbn; tauto|].
  destruct (get_of_key _ info "attractions") as [a ->];
    [rewrite Hk; cbn; tauto|].
  destruct (get_of_key _ info "transportation") as [t ->];
    [rewrite Hk; cbn; tauto|].
  destruct (get_of_key _ info "food") as [f ->]; [rewrite Hk; cbn; tauto|].
  destruct (get_of_key _ info "tips") as [p ->]; [rewrite Hk; cbn; tauto|].
  cbn [bind]. now eexists.
Qed.

(** X11. What [scrape_destination_info] returns is always fit for the next
    step: it is not empty, so [create_travel_guide] goes on, and
    [get_user_prompt] finds every key it reads, so the model is asked. *)
Theorem scraped_info_feeds_the_prompt destination w info w' :
  scrape_destination_info http_get destination w = (Some info, w') ->
  info <> []
  /\ (forall any, returns (get_user_prompt any info))
  /\ (forall w0,
         completions (snd (generate_guide chat_create json_loads
                                          destination info w0))
         = S (completions w0)).
Proof.
  intros H. apply scrape_some_extract in H. destruct H as [Hk _].
  split; [|split].
  - intros ->. discriminate Hk.
  - intros any. now apply five_keys_prompt.
  - intros w0. destruct (five_keys_prompt destination info Hk) as [prompt Hp].
    unfold generate_guide. rewrite Hp.
    destruct (chat_create _) as [message_content|e]; [|reflexivity].
    destruct (decode_and_check json_loads message_content (count_completion w0))
      as [[r w1]|e] eqn:Hd.
    + unfold decode_and_check in Hd.
      destruct (match message_content with
                | Some text => json_loads text
                | None => Raise TypeError
                end) as [decoded|]; cbn [bind] in Hd; [|discriminate].
      destruct (missing_from decoded required_keys) as [[|k m]|];
        cbn [bind] in Hd; [| |discriminate];
        injection Hd as <- <-; reflexivity.
    + destruct e; reflexivity.
Qed.

End PipelineFacts.

Lemma scraped_info_feeds_the_prompt_witness :
  Stub.scraped <> []
  /\ (forall any, returns (get_user_prompt any Stub.scraped))
  /\ (forall w0,
         completions (snd (generate_guide Stub.chat_answers Stub.json_loads
                                          "X" Stub.scraped w0))
         = S (completions w0)).
Proof.
  exact (scraped_info_feeds_the_prompt
           Stub.http_get Stub.chat_answers Stub.json_loads
           "X" (World [] 0 0 []) Stub.scraped (World [] 1 0 []) eq_refl).
Defined.

Section GenerateFacts.

Variable http_get : string -> result (list node).
Variable chat_create : list (string * string) -> result (option string).
Variable json_loads : string -> result value.

(** The key check raises nothing but the [TypeError] of [in]. *)
Lemma missing_from_raise decoded required e :
  missing_from decoded required = Raise e -> e = TypeError.
Proof.
  induction required as [|key rest IH]; cbn [missing_from]; [discriminate|].
  destruct (py_in key decoded) as [present|e'] eqn:Hin; cbn [bind].
  - destruct (missing_from decoded rest) as [m|e'']; cbn [bind];
      [discriminate|].
    intros H. injection H as <-. now apply IH.
  - intros H. injection H as <-.
    destruct decoded; cbn [py_in] in Hin; try discriminate Hin;
      now injection Hin as <-.
Qed.

(** What a call of [generate_guide] leaves behind, whatever happens. *)
Lemma generate_guide_outcome destination content w :
  exists r w' diagnostic,
    generate_guide chat_create json_loads destination content w = (r, w')
    /\ fetches w' = fetches w
    /\ displayed w' = displayed w
    /\ stdout w' = (stdout w ++ diagnostic)%list
    /\ (completions w' = completions w \/ completions w' = S (completions w))
    /\ (r = None -> diagnostic <> [])
    /\ (forall v, r = Some v ->
                  diagnostic = []
                  /\ completions w' = S (completions w)
                  /\ missing_from v required_keys = Ok []).
Proof.
  unfold generate_guide.
  destruct (get_user_prompt destination content) as [prompt|e].
  2: { exists None, (print (ErrorLine "Error generating guide: " e) w),
         [ErrorLine "Error generating guide: " e].
       repeat split; try discriminate; auto. }
  destruct (chat_create _) as [message_content|e].
  2: { exists None, (print (ErrorLine "Error generating guide: " e)
                           (count_completion w)),
         [ErrorLine "Error generating guide: " e].
       repeat split; try discriminate; auto. }
  unfold decode_and_check.
  destruct (match message_content with
            | Some text => json_loads text
            | None => Raise TypeError
            end) as [decoded|e]; cbn [bind].
  - destruct (missing_from decoded required_keys) as [[|k m]|e] eqn:Hm;
      cbn [bind].
    + exists (Some decoded), (count_completion w), [].
      cbn [stdout fetches displayed completions count_completion].
      rewrite app_nil_r. repeat split; auto; try discriminate.
      match goal with
      | H : Some _ = Some _ |- _ => now injection H as <-
      end.
    + eexists None, _, [_]. repeat split; try discriminate; auto.
    + apply missing_from_raise in Hm. subst e.
      exists None, (print (ErrorLine "Error generating guide: " TypeError)
                          (count_completion w)),
        [ErrorLine "Error generating guide: " TypeError].
      repeat split; try discriminate; auto.
  - destruct e;
      try (eexists None, _, [_]; repeat split; try discriminate; auto; fail).
    eexists None, _, [_; _; _].
    repeat split; try discriminate; auto.
    unfold print. cbn [stdout]. now rewrite <- !app_assoc.
Qed.

(** When a guide comes back. *)
Lemma generate_guide_returns_a_guide_iff_helper destination content w v w' :
  generate_guide chat_create json_loads destination content w = (Some v, w')
  <-> exists user_prompt text,
        get_user_prompt destination content = Ok user_prompt
        /\ chat_create (messages_for user_prompt) = Ok (Some text)
        /\ json_loads text = Ok v
        /\ missing_from v required_keys = Ok []
        /\ w' = count_completion w.
Proof.
  unfold generate_guide, messages_for. split.
  - destruct (get_user_prompt destination content) as [prompt|e];
      [|discriminate].
    destruct (chat_create _) as [[text|]|e] eqn:Hc; [| |discriminate].
    + unfold decode_and_check.
      destruct (json_loads text) as [decoded|e] eqn:Hj; cbn [bind].
      * destruct (missing_from decoded required_keys) as [[|k m]|e] eqn:Hm;
          cbn [bind]; try discriminate.
        -- intros H. injection H as <- <-. exists prompt, text.
           repeat split; assumption || reflexivity.
        -- destruct e; discriminate.
      * destruct e; discriminate.
    + cbn [decode_and_check bind]. discriminate.
  - intros (prompt & text & -> & -> & Hj & Hm & ->).
    unfold decode_and_check. rewrite Hj. cbn [bind]. now rewrite Hm.
Qed.

(** X12. [generate_guide] returns a guide exactly when the prompt can be
    built, the completion comes back with a content, the content decodes,
    and the decoded value passes the key check; the guide is then the
    decoded value as it is, the model has been asked once and nothing has
    been printed. *)
Theorem generate_guide_returns_a_guide_iff destination content w v w' :
  generate_guide chat_create json_loads destination content w = (Some v, w')
  <-> exists user_prompt text,
        get_user_prompt destination content = Ok user_prompt
        /\ chat_create (messages_for user_prompt) = Ok (Some text)
        /\ json_loads text = Ok v
        /\ missing_from v required_keys = Ok []
        /\ stdout w' = stdout w
        /\ completions w' = S (completions w)
        /\ fetches w' = fetches w
        /\ displayed w' = displayed w
        /\ w' = count_completion w.
Proof.
  rewrite generate_guide_returns_a_guide_iff_helper. split.
  - intros (prompt & text & Hp & Hc & Hj & Hm & ->).
    exists prompt, text. now repeat split.
  - intros (prompt & text & Hp & Hc & Hj & Hm & _ & _ & _ & _ & ->).
    now exists prompt, text.
Qed.

(** X13. A call of [generate_guide] asks the model at most once, fetches
    and displays nothing, and only adds to what is printed.  When it
    returns no guide it has printed at least one line; when it returns one
    it has printed none. *)
Theorem generate_guide_failure_is_printed destination content w :
  exists r w' diagnostic,
    generate_guide chat_create json_loads destination content w = (r, w')
    /\ fetches w' = fetches w
    /\ displayed w' = displayed w
    /\ stdout w' = (stdout w ++ diagnostic)%list
    /\ (completions w' = completions w \/ completions w' = S (completions w))
    /\ (r = None <-> diagnostic <> []).
Proof.
  destruct (generate_guide_outcome destination content w)
    as (r & w' & diagnostic & E & Hf & Hd & Hs & Hc & Hnone & Hsome).
  exists r, w', diagnostic. repeat split; try assumption.
  intros Hne. destruct r as [v|]; [|reflexivity].
  destruct (Hsome v eq_refl) as [-> _]. now elim Hne.
Qed.

End GenerateFacts.

Section DriverFacts.

Variable http_get : string -> result (list node).
Variable chat_create : list (string * string) -> result (option string).
Variable json_loads : string -> result value.

Lemma scrape_effects destination w :
  fetches (snd (scrape_destination_info http_get destination w))
  = S (fetches w)
  /\ completions (snd (scrape_destination_info http_get destination w))
     = completions w
  /\ displayed (snd (scrape_destination_info http_get destination w))
     = displayed w.
Proof.
  unfold scrape_destination_info.
  destruct (http_get _) as [top|e]; [|now repeat split].
  destruct (find_with_attr _ _ _ _) as [content|]; [|now repeat split].
  destruct (extract content); now repeat split.
Qed.

(** X14. When the fetch raises or the page has no content container,
    [create_travel_guide] stops after the scrape: it prints "Failed to
    scrape content", after the error line of the fetch if there is one,
    does not ask the model and displays nothing. *)
Theorem no_page_means_no_completion destination w :
  (forall top,
      http_get (url_of destination) = Ok top ->
      find_with_attr (document top) "div" "id" "mw-content-text" = None) ->
  exists trace,
    create_travel_guide http_get chat_create json_loads destination w
    = (None,
       World (stdout w ++ [scraping_line destination] ++ trace
                ++ [Line "Failed to scrape content"])
             (S (fetches w)) (completions w) (displayed w))
    /\ (trace = []
        \/ exists e, http_get (url_of destination) = Raise e
                     /\ trace = [ErrorLine "Error scraping data: " e]).
Proof.
  intros Hnone. unfold create_travel_guide, scrape_destination_info, url_of in *.
  destruct (http_get _) as [top|e] eqn:Hget.
  - rewrite (Hnone top eq_refl). exists []. split; [|now left].
    unfold print, count_fetch, scraping_line.
    cbn [stdout fetches completions displayed app].
    now rewrite <- !app_assoc.
  - exists [ErrorLine "Error scraping data: " e]. split; [|right; now exists e].
    unfold print, count_fetch, scraping_line.
    cbn [stdout fetches completions displayed app].
    now rewrite <- !app_assoc.
Qed.

(** X15. When the scrape and the model both succeed, [create_travel_guide]
    renders the guide: it displays the document of [format_guide] and
    prints neither of the two failure lines, or lets the exception of
    [format_guide] through and displays nothing. *)
Theorem both_stages_succeed_then_render destination w info w1 guide w2 :
  scrape_destination_info http_get destination
                          (print (scraping_line destination) w)
  = (Some info, w1) ->
  generate_guide chat_create json_loads destination info
                 (print (Line "Generating guide...") w1)
  = (Some guide, w2) ->
  create_travel_guide http_get chat_create json_loads destination w
  = match format_guide guide destination with
    | Ok doc =>
        (None,
         World (stdout w ++ [scraping_line destination;
                             Line "Generating guide..."])
               (S (fetches w)) (S (completions w)) (displayed w ++ [doc]))
    | Raise e =>
        (Some e,
         World (stdout w ++ [scraping_line destination;
                             Line "Generating guide..."])
               (S (fetches w)) (S (completions w)) (displayed w))
    end.
Proof.
  intros Hs Hg. unfold create_travel_guide. fold (scraping_line destination).
  rewrite Hs.
  destruct (scrape_some_extract http_get _ _ _ _ Hs) as [Hk ->].
  destruct info as [|entry info']; [discriminate Hk|].
  rewrite Hg.
  apply (proj1 (generate_guide_returns_a_guide_iff_helper
                  chat_create json_loads _ _ _ _ _)) in Hg.
  destruct Hg as (prompt & text & _ & _ & _ & Hacc & ->).
  rewrite (accepted_is_truthy _ Hacc).
  unfold display, print, count_fetch, count_completion, scraping_line.
  cbn [stdout fetches completions displayed].
  rewrite <- !app_assoc. reflexivity.
Qed.

(** X16. Whatever the collaborators do, one run of [create_travel_guide]
    fetches once, asks the model at most once and displays at most one
    document: the document [format_guide] returns for a decoded value that
    passed the key check.  The only exception that leaves it is one that
    [format_guide] raises on such a value, and then nothing is displayed. *)
Theorem one_run_of_the_driver destination w :
  exists r w',
    create_travel_guide http_get chat_create json_loads destination w
    = (r, w')
    /\ fetches w' = S (fetches w)
    /\ (completions w' = completions w \/ completions w' = S (completions w))
    /\ (displayed w' = displayed w
        \/ exists guide doc,
             r = None
             /\ missing_from guide required_keys = Ok []
             /\ format_guide guide destination = Ok doc
             /\ displayed w' = (displayed w ++ [doc])%list)
    /\ (forall e,
           r = Some e ->
           displayed w' = displayed w
           /\ exists guide,
                missing_from guide required_keys = Ok []
                /\ format_guide guide destination = Raise e).
Proof.
  unfold create_travel_guide.
  pose proof (scrape_effects destination
                (print (Line ("Scraping information for " ++ destination
                              ++ "...")) w)) as (Hf & Hc & Hd).
  destruct (scrape_destination_info http_get destination _)
    as [[info|] w1] eqn:Hs; cbn [snd] in Hf, Hc, Hd;
    cbn [print fetches completions displayed] in Hf, Hc, Hd.
  2: { eexists None, _. split; [reflexivity|].
       cbn [print fetches completions displayed].
       repeat split; auto; discriminate. }
  destruct info as [|entry info'].
  { eexists None, _. split; [reflexivity|].
    cbn [print fetches completions displayed].
    repeat split; auto; discriminate. }
  destruct (generate_guide_outcome chat_create json_loads destination
              (entry :: info') (print (Line "Generating guide...") w1))
    as (r & w2 & diagnostic & E & Hf2 & Hd2 & _ & Hc2 & _ & Hsome).
  rewrite E. cbn [print fetches completions displayed] in Hf2, Hd2, Hc2.
  destruct r as [guide|].
  2: { eexists None, _. split; [reflexivity|].
       cbn [print fetches completions displayed].
       rewrite Hf2, Hd2, Hf, Hd. repeat split; auto; try discriminate.
       rewrite <- Hc. tauto. }
  destruct (Hsome guide eq_refl) as (_ & Hc3 & Hacc).
  cbn [print completions] in Hc3.
  rewrite (accepted_is_truthy _ Hacc).
  destruct (format_guide guide destination) as [doc|e] eqn:Hfmt.
  - eexists None, _. split; [reflexivity|].
    cbn [display fetches completions displayed].
    rewrite Hf2, Hd2, Hf, Hd, Hc3, Hc. repeat split; auto; try discriminate.
    right. now exists guide, doc.
  - eexists (Some e), _. split; [reflexivity|].
    rewrite Hf2, Hd2, Hf, Hd, Hc3, Hc. repeat split; auto.
    all: match goal with
         | H : Some _ = Some _ |- _ => injection H as <-
         end; auto.
    now exists guide.
Qed.

End DriverFacts.

Lemma no_page_means_no_completion_witness :
  exists trace,
    create_travel_guide (fun _ => Raise (OtherError "404 Client Error"))
                        Stub.chat_answers Stub.json_loads
                        "Atlantis" (World [] 0 0 [])
    = (None,
       World (stdout (World [] 0 0 []) ++ [scraping_line "Atlantis"] ++ trace
                ++ [Line "Failed to scrape content"])
             (S (fetches (World [] 0 0 []))) (completions (World [] 0 0 []))
             (displayed (World [] 0 0 [])))
    /\ (trace = []
        \/ exists e,
             @Raise (list node) (OtherError "404 Client Error") = Raise e
             /\ trace = [ErrorLine "Error scraping data: " e]).
Proof.
  exact (no_page_means_no_completion
           (fun _ => Raise (OtherError "404 Client Error"))
           Stub.chat_answers Stub.json_loads
           "Atlantis" (World [] 0 0 [])
           (fun top (H : Raise (OtherError "404 Client Error") = Ok top) =>
              match H in (_ = r)
                    return (match r with
                            | Ok top' =>
                                find_with_attr (document top') "div" "id"
                                               "mw-content-text" = None
                            | Raise _ => True
                            end)
              with eq_refl => I end)).
Defined.

Lemma both_stages_succeed_then_render_witness :
  create_travel_guide Stub.http_get Stub.chat_answers Stub.json_loads
                      "X" (World [] 0 0 [])
  = match format_guide
            (VDict [("overview", VStr "X is great.");
                    ("attractions", VStr "1. Tower");
                    ("transportation", VStr "Metro");
                    ("food_and_dining", VStr "Cafes");
                    ("tips", VStr "Be safe")])
            "X"
    with
    | Ok doc =>
        (None,
         World (stdout (World [] 0 0 [])
                  ++ [scraping_line "X"; Line "Generating guide..."])
               (S (fetches (World [] 0 0 [])))
               (S (completions (World [] 0 0 [])))
               (displayed (World [] 0 0 []) ++ [doc]))
    | Raise e =>
        (Some e,
         World (stdout (World [] 0 0 [])
                  ++ [scraping_line "X"; Line "Generating guide..."])
               (S (fetches (World [] 0 0 [])))
               (S (completions (World [] 0 0 [])))
               (displayed (World [] 0 0 [])))
    end.
Proof.
  exact (both_stages_succeed_then_render
           Stub.http_get Stub.chat_answers Stub.json_loads
           "X" (World [] 0 0 []) Stub.scraped _ _ _ eq_refl eq_refl).
Defined.

Section Address.

Variable http_get : string -> result (list node).

Lemma no_space_after_replace s : contains " " (replace_space s) = false.
Proof.
  induction s as [|c s IH]; [reflexivity|].
  cbn [replace_space contains]. rewrite IH, orb_false_r.
  cbn [prefix].
  destruct (ascii_dec " " (if Ascii.eqb c " " then "_"%char else c))
    as [E|E]; [|reflexivity].
  destruct (Ascii.eqb c " ") eqn:Ec; [discriminate E|].
  subst c. discriminate Ec.
Qed.

(** X17. The page is asked for at one address only, the fixed prefix
    followed by the destination with every space turned into an
    underscore: the address has no space in it, and the outcome of
    [scrape_destination_info] depends on the fetch at that address alone. *)
Theorem scrape_fetches_one_address destination w :
  contains " " (url_of destination) = false
  /\ forall other : string -> result (list node),
       other (url_of destination) = http_get (url_of destination) ->
       scrape_destination_info other destination w
       = scrape_destination_info http_get destination w.
Proof.
  split.
  - unfold url_of.
    cbn [append contains prefix Ascii.eqb Bool.eqb orb].
    apply no_space_after_replace.
  - intros other H. unfold scrape_destination_info, url_of in *.
    now rewrite H.
Qed.

End Address.

(* ================================================================== *)
(** * Two headings of one section *)
(* ================================================================== *)

Section SameSection.

Lemma gathered_elsewhere key mid :
  Forall (fun heading => exists other, maps_to heading other /\ other <> key)
         mid ->
  forall current_section, gathered key mid current_section = "".
Proof.
  induction 1 as [|heading rest (other & Hmap & Hne) _ IH]; intros cs;
    cbn [gathered]; [reflexivity|].
  destruct (maps_to_any _ _ Hmap) as [_ Hall]. rewrite (Hall cs).
  apply String.eqb_neq in Hne. rewrite Hne. now rewrite IH.
Qed.

(** C10, as stated, fails.  On "See", "History", "Sights" the two headings
    "See" and "Sights" both name [attractions], but the text of "Sights"
    does not come right after the text of "See": the text of "History",
    which falls through to [attractions], stands between them. *)
Lemma text_between_two_headings_of_one_section :
  extract see_history_sights
  = Ok [("overview", "A."); ("attractions", "A.B.C.");
        ("transportation", ""); ("food", ""); ("tips", "")]
  /\ ~ (forall first mid second key current_section info old,
           maps_to first key ->
           maps_to second key ->
           Dict.keys info = five_keys ->
           Dict.get info key = Some old ->
           exists info',
             headings_loop (first :: mid ++ [second]) (current_section, info)
             = Ok (Some key, info')
             /\ Dict.get info' key
                = Some (old ++ section_text first ++ section_text second)).
Proof.
  split; [reflexivity|]. intros H.
  destruct (H (Element "h2" [] [Text "See"]
                 [Pages.p "A."; Pages.h2 "History"; Pages.p "B.";
                  Pages.h2 "Sights"; Pages.p "C."])
              [Element "h2" [] [Text "History"]
                 [Pages.p "B."; Pages.h2 "Sights"; Pages.p "C."]]
              (Element "h2" [] [Text "Sights"] [Pages.p "C."])
              "attractions" None empty_info ""
              eq_refl eq_refl eq_refl eq_refl) as (info' & E & G).
  vm_compute in E. injection E as <-. vm_compute in G. discriminate G.
Qed.

(** C10, amended.  When two headings name the same section, the section
    holds afterwards what it held before, then the text of the first
    heading, then the texts of the headings between the two that were
    processed while this section was the current one, then the text of the
    second heading, each put right after the other with nothing between
    them.  When every heading between the two names another section, the
    text of the second heading comes right after the text of the first. *)
Theorem same_section_runs_in_order first mid second key :
  maps_to first key ->
  maps_to second key ->
  forall current_section info old,
    Dict.keys info = five_keys ->
    Dict.get info key = Some old ->
    exists info',
      headings_loop (first :: mid ++ [second]) (current_section, info)
      = Ok (Some key, info')
      /\ Dict.get info' key
         = Some (old ++ section_text first
                     ++ gathered key mid (Some key)
                     ++ section_text second)
      /\ (Forall (fun heading =>
                    exists other, maps_to heading other /\ other <> key) mid ->
          Dict.get info' key
          = Some (old ++ section_text first ++ section_text second)).
Proof.
  intros H1 H2 cs info old Hk Hget.
  destruct (maps_to_any _ _ H1) as [Hin Hall1].
  destruct (maps_to_any _ _ H2) as [_ Hall2].
  cbn [headings_loop].
  rewrite (heading_step_some _ _ _ _ _ (Hall1 cs) Hin Hget). cbn [bind].
  rewrite headings_loop_app.
  destruct (headings_loop_gathers mid (Some key)
              (Dict.set info key (old ++ section_text first)))
    as ([cs' info1] & E & Hk1 & Hall); [exact Hin| |].
  { now rewrite (keys_set _ _ _ _ _ Hget). }
  rewrite E. cbn [bind headings_loop snd] in *.
  pose proof (Hall key (old ++ section_text first) (get_set_same _ _ _ _))
    as Hg1.
  unfold info_dict in *.
  rewrite (heading_step_some _ _ _ _ _ (Hall2 cs') Hin Hg1). cbn [bind].
  eexists. split; [reflexivity|].
  rewrite get_set_same. split.
  - now rewrite !append_assoc.
  - intros Hmid. rewrite (gathered_elsewhere key mid Hmid).
    now rewrite append_nil_r, !append_assoc.
Qed.

Lemma same_section_runs_in_order_witness :
  exists info',
    headings_loop (headings_of see_history_sights)
                  (None, Dict.set empty_info "overview" "A.")
    = Ok (Some "attractions", info')
    /\ Dict.get info' "attractions" = Some "A.B.C.".
Proof.
  destruct (same_section_runs_in_order
              (Element "h2" [] [Text "See"]
                 [Pages.p "A."; Pages.h2 "History"; Pages.p "B.";
                  Pages.h2 "Sights"; Pages.p "C."])
              [Element "h2" [] [Text "History"]
                 [Pages.p "B."; Pages.h2 "Sights"; Pages.p "C."]]
              (Element "h2" [] [Text "Sights"] [Pages.p "C."])
              "attractions" eq_refl eq_refl
              None (Dict.set empty_info "overview" "A.") "" eq_refl eq_refl)
    as (info' & E & G & _).
  exists info'. split; [exact E | exact G].
Defined.

(** "See", "Get around", "Sights": the text under "Sights" comes right
    after the two paragraphs under "See", which a space joins. *)
Lemma see_then_sights_page :
  extract Pages.see_then_sights
  = Ok [("overview", "Museums. Parks.");
        ("attractions", "Museums. Parks.The tower.");
        ("transportation", "By metro."); ("food", ""); ("tips", "")].
Proof. reflexivity. Qed.

End SameSection.
